(** * Local Texture Search: a shallow embedding of [image_compare.py]

    The development embeds the three functions of the program that carry its
    behaviour ([mse], [image_compare] and [multithreading_compare]) together
    with [main], and proves properties of the work partition, of the
    per-candidate scan and of the match log.

    The image codec, the SIFT detector, the brute-force matcher, the clock
    and the directory listing are library or operating-system primitives.
    They enter the model as the fields of an environment ([Section] variables),
    with one result constructor for every way the Python call can end that the
    source distinguishes. *)

From Stdlib Require Import ZArith QArith Lia List.
From Stdlib Require Import DecimalString.
From stdpp Require Import gmap strings list fin_maps.

(** ** Python primitives used by the source *)

Module Py.

(** [l[a:b]] for non-negative [a] and [b]: both ends are clamped to the
    length of the list, and the slice is empty when [b <= a]. *)
Definition slice {A} (l : list A) (a b : nat) : list A := drop a (take b l).

(** [l[a:]] for non-negative [a]. *)
Definition slice_from {A} (l : list A) (a : nat) : list A := drop a l.

(** [round(a / b)] for non-negative integers [a] and [b > 0]: the true
    quotient rounded to the nearest integer, a tie going to the even
    neighbour. The quotient is taken in exact arithmetic; the float quotient
    agrees with it whenever the exact one is an integer below 2^53, which is
    the only way the source uses it. *)
Definition round_div (a b : nat) : nat :=
  let q := a / b in
  let r := a mod b in
  match Nat.compare (2 * r) b with
  | Lt => q
  | Gt => S q
  | Eq => if Nat.even q then q else S q
  end.

(** [str(n)] for a non-negative integer. *)
Definition str_nat (n : nat) : string :=
  NilEmpty.string_of_uint (Nat.to_uint n).

(** [range(a, b)] for naturals. *)
Definition range (a b : nat) : list nat := seq a (b - a).

(** The line feed written as a backslash-n escape in the source. *)
Definition nl : string := String (Ascii.ascii_of_nat 10) EmptyString.

(** A float64 value as far as the program can produce one: a finite number
    (kept as an exact rational), positive infinity, or not-a-number. *)
Inductive float : Type :=
  | Fin (q : Q)
  | Inf
  | NaN.

(** [x < k] for a float [x] and a finite constant [k]; every comparison with
    not-a-number is false. *)
Definition float_lt (x : float) (k : Q) : bool :=
  match x with
  | Fin q => negb (Qle_bool k q)
  | Inf => false
  | NaN => false
  end.

(** [x == y] on floats; not-a-number equals nothing, itself included. *)
Definition float_eq (x y : float) : bool :=
  match x, y with
  | Fin p, Fin q => Qeq_bool p q
  | Inf, Inf => true
  | _, _ => false
  end.

(** [s.replace(a, b)] for one-character strings [a] and [b]. *)
Fixpoint replace_char (a b : Ascii.ascii) (s : string) : string :=
  match s with
  | EmptyString => EmptyString
  | String c rest =>
      String (if Ascii.eqb c a then b else c) (replace_char a b rest)
  end.

(** [s[:-1]]: everything but the last character; empty for the empty string. *)
Fixpoint drop_last (s : string) : string :=
  match s with
  | EmptyString => EmptyString
  | String c EmptyString => EmptyString
  | String c rest => String c (drop_last rest)
  end.

(** [s[n:]] on strings. *)
Fixpoint str_from (n : nat) (s : string) : string :=
  match n, s with
  | O, _ => s
  | S n', EmptyString => EmptyString
  | S n', String _ rest => str_from n' rest
  end.

(** [sub in s]: [sub] occurs in [s] as a contiguous substring. *)
Fixpoint contains (sub s : string) : bool :=
  String.prefix sub s ||
  match s with
  | EmptyString => false
  | String _ rest => contains sub rest
  end.

End Py.

(** ** The work partition of [multithreading_compare] (lines 144-158) *)

Definition share_of_files {A} (filename_list : list A) (use_threading : nat) : nat :=
  let mod_ := length filename_list mod use_threading in
  Py.round_div (length filename_list - mod_) use_threading.

(** The chunk appended in iteration [i] of the loop over
    [range(1, use_threading + 1)]. *)
Definition chunk_of {A} (filename_list : list A) (use_threading i : nat) : list A :=
  let index_1 := (i - 1) * share_of_files filename_list use_threading in
  if i <? use_threading then
    let index_2 := i * share_of_files filename_list use_threading in
    Py.slice filename_list index_1 index_2
  else
    Py.slice_from filename_list index_1.

Definition filename_list_chunks {A} (filename_list : list A) (use_threading : nat)
  : list (list A) :=
  map (chunk_of filename_list use_threading) (Py.range 1 (use_threading + 1)).

(** ** The mean squared error, [mse] (lines 19-30) *)

(** A two-dimensional array of intensities as [cv2.cvtColor] returns it:
    its shape and its elements in row-major order. *)
Record image : Type := Image {
  shape0 : nat;
  shape1 : nat;
  pixels : list Z
}.

(** [np.sum((image_a.astype("float") - image_b.astype("float")) ** 2)] for
    two arrays of one shape. Every intermediate value is an integer, so the
    float computation is exact while the sum stays below 2^53. *)
Definition squared_error (image_a image_b : image) : Z :=
  foldr Z.add 0%Z
    (zip_with (fun x y => ((x - y) ^ 2)%Z) (pixels image_a) (pixels image_b)).

(** [err /= float(image_a.shape[0] * image_a.shape[1])] on a numpy float:
    a zero divisor gives not-a-number for a zero sum and infinity otherwise.
    The quotient is kept exact; for the 1024 x 1024 arrays of the program the
    divisor is 2^20 and the float quotient is exact as well. *)
Definition mse (image_a image_b : image) : Py.float :=
  let err := squared_error image_a image_b in
  let n := shape0 image_a * shape1 image_a in
  match n with
  | O => if (err =? 0)%Z then Py.NaN else Py.Inf
  | S _ => Py.Fin (err # Pos.of_nat n)
  end.

(** Two arrays have one shape, and hold as many elements as it says. *)
Definition same_shape (a b : image) : bool :=
  (shape0 a =? shape0 b) && (shape1 a =? shape1 b)
  && (length (pixels a) =? shape0 a * shape1 a)
  && (length (pixels b) =? shape0 b * shape1 b).

(** ** The world the program runs in *)

(** The values stored in [argument_dict]. *)
Inductive value : Type :=
  | VStr (s : string)
  | VBool (b : bool)
  | VList (l : list string).

(** The two metrics; an entry of the metric trace records which one was
    computed for which candidate. The trace is ghost state: the program does
    not read it. *)
Inductive metric : Type := SIFT | MSE.

(** The file system maps a path to the strings written to it, one entry per
    [write] call; the content of the file is their concatenation. [stdout]
    holds one entry per [print] call, and [spawned] the keyword arguments of
    every process started, in start order. *)
Record world : Type := World {
  fs : gmap string (list string);
  stdout : list string;
  spawned : list (gmap string value);
  metric_trace : list (metric * string)
}.

Inductive exn : Type :=
  | IndexError
  | TypeError
  | ZeroDivisionError
  | FileNotFoundError
  | UncaughtError.

(** How a Python call ends: it returns, it leaves through [exit(code)], or an
    exception that nothing catches unwinds it. *)
Inductive outcome (A : Type) : Type :=
  | Returned (a : A) (w : world)
  | Exited (code : Z) (w : world)
  | Raised (e : exn) (w : world).
Arguments Returned {A} a w.
Arguments Exited {A} code w.
Arguments Raised {A} e w.

Definition M (A : Type) : Type := world -> outcome A.

Definition ret {A} (a : A) : M A := fun w => Returned a w.

Definition bind {A B} (k : A -> M B) (m : M A) : M B :=
  fun w =>
    match m w with
    | Returned a w' => k a w'
    | Exited c w' => Exited c w'
    | Raised e w' => Raised e w'
    end.

#[export] Instance M_ret : MRet M := @ret.
#[export] Instance M_bind : MBind M := @bind.

Definition raise {A} (e : exn) : M A := fun w => Raised e w.

Definition exit {A} (code : Z) : M A := fun w => Exited code w.

Definition when (b : bool) (m : M unit) : M unit := if b then m else ret tt.

Definition print (s : string) : M unit :=
  fun w => Returned tt
    {| fs := fs w; stdout := stdout w ++ [s];
       spawned := spawned w; metric_trace := metric_trace w |}.

(** [open(path, "a")] followed by [f.write(s)]: opening creates the file when
    it is missing, the write goes to its end. Opening the log, which lives in
    the working directory of the run, is taken to succeed. *)
Definition open_append (path : string) : M unit :=
  fun w => Returned tt
    {| fs := <[path := default [] (fs w !! path)]> (fs w); stdout := stdout w;
       spawned := spawned w; metric_trace := metric_trace w |}.

Definition write (path s : string) : M unit :=
  fun w => Returned tt
    {| fs := <[path := default [] (fs w !! path) ++ [s]]> (fs w);
       stdout := stdout w;
       spawned := spawned w; metric_trace := metric_trace w |}.

(** [process.start()] of a [multiprocessing.Process] created with
    [kwargs=d]: the constructor copies the dictionary, so the process holds
    the entries [d] had at that moment. *)
Definition start_process (d : gmap string value) : M unit :=
  fun w => Returned tt
    {| fs := fs w; stdout := stdout w;
       spawned := spawned w ++ [d]; metric_trace := metric_trace w |}.

Definition note_metric (m : metric) (file_name : string) : M unit :=
  fun w => Returned tt
    {| fs := fs w; stdout := stdout w;
       spawned := spawned w; metric_trace := metric_trace w ++ [(m, file_name)] |}.

(** ** The environment: library and operating-system primitives *)

(** How loading and normalising one file ends (lines 42-47 and 57 for the
    key, 68-73 and 84-86 for a candidate): the grey 1024 x 1024 array, one of
    the three exceptions the source names, or any other exception. *)
Inductive load_result : Type :=
  | Loaded (img : image)
  | LoadFileNotFound
  | LoadUnidentifiedImage
  | LoadPermissionDenied
  | LoadOtherError.

(** What [bf.match] does: it returns a list of matches, of which the source
    uses the length only, or raises [cv2.error]. *)
Inductive match_result : Type :=
  | Matches (n : nat)
  | CvError.

(** Descriptors as [sift.detectAndCompute(img, None)[1]] returns them: one
    row per keypoint, or [None] when no keypoint was found. *)
Definition descriptors : Type := option (list (list Z)).

Definition descriptor_count (d : descriptors) : nat :=
  match d with
  | Some rows => length rows
  | None => 0
  end.

Record env : Type := Env {
  load_image : string -> load_result;
  detect_and_compute : image -> descriptors;
  bf_match : descriptors -> descriptors -> match_result;
  str_float : Py.float -> string;
  elapsed : string;
  getcwd : string;
  isfile : string -> bool;
  isdir : string -> bool;
  glob : string -> list string;
  time_prefix : string;
  int_of_string : string -> option Z
}.

(** ** The scan, [image_compare] (lines 33-135) *)

(** The block [with open(log_filename, "a") as f: ...] of lines 107-110 and
    126-129: the file is opened, its name printed when [verbose], and one
    line written. *)
Definition log_match (log_filename : string) (verbose : bool) (line : string)
  : M unit :=
  open_append log_filename ;;
  when verbose (print log_filename) ;;
  write log_filename line.

(** Lines 89-115, the SIFT branch for one loaded candidate. *)
Definition sift_branch (E : env) (key_img tex_img : image)
    (file_name log_filename : string) (verbose : bool) : M unit :=
  note_metric SIFT file_name ;;
  let descriptors_1 := detect_and_compute E key_img in
  let descriptors_2 := detect_and_compute E tex_img in
  match bf_match E descriptors_1 descriptors_2 with
  | Matches n =>
      when (400 <? n)
        (log_match log_filename verbose
           (file_name +:+ " " +:+ " SIFT Matches:" +:+ Py.str_nat n +:+ Py.nl)) ;;
      when verbose (print ("SIFT: " +:+ Py.str_nat n))
  | CvError => mret tt
  end.

(** Lines 118-129, the MSE branch for one loaded candidate. *)
Definition mse_branch (E : env) (key_img tex_img : image)
    (file_name log_filename : string) (verbose : bool) : M unit :=
  note_metric MSE file_name ;;
  let comparison_mse := mse key_img tex_img in
  when verbose (print ("MSE: " +:+ str_float E comparison_mse)) ;;
  when (Py.float_lt comparison_mse 1000)
    (log_match log_filename verbose
       (file_name +:+ " " +:+ str_float E comparison_mse +:+ " " +:+ Py.nl)).

(** Lines 66-129, the body of the loop after [processed += 1]. The three
    [except] clauses [continue]; any other exception leaves the function. *)
Definition compare_candidate (E : env) (key_img : image)
    (log_filename : string) (verbose compare highlowres : bool)
    (file_name : string) : M unit :=
  match load_image E file_name with
  | LoadFileNotFound => mret tt
  | LoadUnidentifiedImage => mret tt
  | LoadPermissionDenied => mret tt
  | LoadOtherError => raise UncaughtError
  | Loaded tex_img =>
      if compare then
        sift_branch E key_img tex_img file_name log_filename verbose
      else if highlowres then
        mse_branch E key_img tex_img file_name log_filename verbose
      else mret tt
  end.

(** Lines 64-129, the loop; it returns the final value of [processed]. *)
Fixpoint scan (E : env) (key_img : image)
    (log_filename : string) (verbose compare highlowres : bool)
    (filename_list : list string) (processed : nat) : M nat :=
  match filename_list with
  | [] => mret processed
  | file_name :: rest =>
      let processed := processed + 1 in
      compare_candidate E key_img log_filename verbose compare highlowres
        file_name ;;
      scan E key_img log_filename verbose compare highlowres rest processed
  end.

(** [image_compare]. The parameter [filename_list] defaults to [None], over
    which the loop cannot iterate. *)
Definition image_compare (E : env) (filename_list : option (list string))
    (compare_file log_filename : string) (verbose compare highlowres : bool)
  : M unit :=
  match load_image E compare_file with
  | LoadUnidentifiedImage =>
      print "Error: invalid compare_file, ensure file is an image" ;;
      exit 1
  | LoadPermissionDenied =>
      print "Error: insufficient permissions to read compare_file, ensure your account has access to compare_file" ;;
      exit 1
  | LoadFileNotFound => raise FileNotFoundError
  | LoadOtherError => raise UncaughtError
  | Loaded key_img =>
      match filename_list with
      | None => raise TypeError
      | Some files =>
          processed ← scan E key_img log_filename verbose compare highlowres
                        files 0 ;
          when verbose
            (print ("Ran in " +:+ elapsed E +:+ " seconds") ;;
             print ("Processed " +:+ Py.str_nat processed +:+ " files"))
      end
  end.

(** ** Calling [image_compare] with [argument_dict] as keyword arguments *)

Definition get_str (d : gmap string value) (k default_ : string) : string :=
  match d !! k with
  | Some (VStr s) => s
  | _ => default_
  end.

Definition get_bool (d : gmap string value) (k : string) : bool :=
  match d !! k with
  | Some (VBool b) => b
  | _ => false
  end.

Definition get_list (d : gmap string value) (k : string) : option (list string) :=
  match d !! k with
  | Some (VList l) => Some l
  | _ => None
  end.

(** Every parameter of [image_compare] takes the entry of its name, or its
    default when the dictionary has none. *)
Definition image_compare_kwargs (E : env) (d : gmap string value) : M unit :=
  image_compare E (get_list d "filename_list")
    (get_str d "compare_file" "") (get_str d "log_filename" "")
    (get_bool d "verbose") (get_bool d "compare") (get_bool d "highlowres").

(** ** Starting the workers, [multithreading_compare] (lines 160-183) *)

(** [argument_dict["filename_list"] = filename_list_chunks[i]] followed by
    the creation and start of one process. The dictionary is the caller's
    object, so the updated dictionary is handed on. *)
Definition assign_and_start (chunks : list (list string)) (i : nat)
    (argument_dict : gmap string value) : M (gmap string value) :=
  match chunks !! i with
  | None => raise IndexError
  | Some chunk =>
      let argument_dict := <["filename_list" := VList chunk]> argument_dict in
      start_process argument_dict ;;
      mret argument_dict
  end.

(** [multithreading_compare]; the result is [argument_dict] as the function
    leaves it. The worker count is a natural number: [main] passes 2, 3 or 4
    and nothing else. A count of zero fails in the first line,
    [len(...) % 0]; a count of one builds one chunk and starts no process. *)
Definition multithreading_compare (filename_list : list string)
    (argument_dict : gmap string value) (use_threading : nat)
  : M (gmap string value) :=
  if use_threading =? 0 then raise ZeroDivisionError
  else
    let chunks := filename_list_chunks filename_list use_threading in
    argument_dict ←
      (if 2 <=? use_threading then
         argument_dict ← assign_and_start chunks 0 argument_dict ;
         assign_and_start chunks 1 argument_dict
       else mret argument_dict) ;
    argument_dict ←
      (if 3 <=? use_threading then assign_and_start chunks 2 argument_dict
       else mret argument_dict) ;
    if 4 <=? use_threading then assign_and_start chunks 3 argument_dict
    else mret argument_dict.

(** ** The command line, [main] (lines 186-255) *)

Definition backslash : Ascii.ascii := Ascii.ascii_of_nat 92.
Definition slash : Ascii.ascii := Ascii.ascii_of_nat 47.

Definition has_key (d : gmap string value) (k : string) : bool :=
  bool_decide (is_Some (d !! k)).

(** Lines 207-227, the body of the loop over [sys.argv[2:]]; the state is
    [use_threading] and [argument_dict]. *)
Definition parse_parameter (E : env) (parameter : string)
    (st : Z * gmap string value) : M (Z * gmap string value) :=
  let '(use_threading, argument_dict) := st in
  use_threading ←
    (if Py.contains "threading=" parameter then
       match int_of_string E (Py.str_from (String.length "threading=") parameter) with
       | None =>
           print "Error: thread count could not be converted to a number, enter a number for thread count orsee README.md for usage." ;;
           exit 1
       | Some n =>
           if negb ((2 <=? n)%Z && (n <? 5)%Z) then
             print "Error: thread count must be between 2 and 4" ;;
             exit 1
           else mret n
       end
     else mret use_threading) ;
  let argument_dict :=
    if String.eqb parameter "-v" then <["verbose" := VBool true]> argument_dict
    else argument_dict in
  let argument_dict :=
    if String.eqb parameter "compare" then <["compare" := VBool true]> argument_dict
    else argument_dict in
  let argument_dict :=
    if String.eqb parameter "highlowres" then <["highlowres" := VBool true]> argument_dict
    else argument_dict in
  mret (use_threading, argument_dict).

Fixpoint parse_parameters (E : env) (parameters : list string)
    (st : Z * gmap string value) : M (Z * gmap string value) :=
  match parameters with
  | [] => mret st
  | parameter :: rest =>
      st ← parse_parameter E parameter st ;
      parse_parameters E rest st
  end.

(** Lines 240-255: the log name is fixed, the directory listed, and the scan
    started in this process or in workers. *)
Definition dispatch (E : env) (texture_path : string) (use_threading : Z)
    (argument_dict : gmap string value) : M unit :=
  let argument_dict :=
    <["log_filename" := VStr (time_prefix E +:+ "_matches.txt")]> argument_dict in
  let filename_list := glob E (texture_path +:+ "*") in
  when (length filename_list =? 0)
    (print "Error: no files in path_to_textures, are you sure you provided the right directory?") ;;
  if negb (use_threading =? 0)%Z then
    multithreading_compare filename_list argument_dict (Z.to_nat use_threading) ;;
    mret tt
  else
    let argument_dict := <["filename_list" := VList filename_list]> argument_dict in
    image_compare_kwargs E argument_dict.

Definition main (E : env) (argv : list string) : M unit :=
  match argv !! 1 with
  | None => raise IndexError
  | Some argv_1 =>
      let compare_file := getcwd E +:+ "/" +:+ argv_1 in
      let argument_dict : gmap string value :=
        {["compare_file" := VStr compare_file]} in
      if negb (isfile E compare_file) then
        print "Error: compare file not found, check if file exists or see README.md for syntax" ;;
        exit 1
      else
        match argv !! 2 with
        | None => raise IndexError
        | Some argv_2 =>
            let texture_path := Py.replace_char backslash slash argv_2 in
            let texture_path :=
              if negb (String.eqb (Py.drop_last texture_path) "/")
              then texture_path +:+ "/" else texture_path in
            if negb (isdir E texture_path) then
              print "Error: path_to_textures is not a valid directory, see README.md for formatting examples" ;;
              exit 1
            else
              let argument_dict := <["verbose" := VBool false]> argument_dict in
              st ← parse_parameters E (drop 2 argv) (0%Z, argument_dict) ;
              let '(use_threading, argument_dict) := st in
              if negb (has_key argument_dict "compare"
                       || has_key argument_dict "highlowres") then
                print "Error: must provide either 'compare' or 'highlowres' for required argument search_mode." ;;
                exit 1
              else if has_key argument_dict "compare"
                      && has_key argument_dict "highlowres" then
                print "Error: more than one argument for search_mode provided, see README.md for more details." ;;
                exit 1
              else dispatch E texture_path use_threading argument_dict
        end
  end.

(** ** A whole run *)

(** The world a process leaves behind, however it ends. *)
Definition final_world {A} (m : M A) (w : world) : world :=
  match m w with
  | Returned _ w' => w'
  | Exited _ w' => w'
  | Raised _ w' => w'
  end.

(** One run of the program from a given file system: [main], then every
    process it started. The workers are independent processes that share
    nothing but the log; they are run here one after the other in start
    order, which is one of the schedules the operating system may choose. *)
Definition run (E : env) (argv : list string) (files : gmap string (list string))
  : world :=
  let w_main :=
    final_world (main E argv)
      {| fs := files; stdout := []; spawned := []; metric_trace := [] |} in
  foldl (fun w d => final_world (image_compare_kwargs E d) w)
    w_main (spawned w_main).

(** ** Vocabulary of the properties *)

(** The Match Records of a log: the strings written to it so far. *)
Definition log_records (w : world) (log_filename : string) : list string :=
  default [] (fs w !! log_filename).

(** A candidate the loop skips: loading it ends in one of the three
    exceptions the [except] clauses of lines 75-82 name. *)
Definition unreadable (E : env) (file_name : string) : bool :=
  match load_image E file_name with
  | LoadFileNotFound | LoadUnidentifiedImage | LoadPermissionDenied => true
  | Loaded _ | LoadOtherError => false
  end.

(** A candidate that loads: the loop body reaches the metric branches. *)
Definition loads (E : env) (file_name : string) : bool :=
  match load_image E file_name with
  | Loaded _ => true
  | _ => false
  end.

(** The line the MSE branch writes for a candidate, and the line the SIFT
    branch writes. *)
Definition mse_record (E : env) (file_name : string) (score : Py.float) : string :=
  file_name +:+ " " +:+ str_float E score +:+ " " +:+ Py.nl.

Definition sift_record (file_name : string) (n : nat) : string :=
  file_name +:+ " " +:+ " SIFT Matches:" +:+ Py.str_nat n +:+ Py.nl.

(** The only change a run makes to the file system: files other than the
    log keep their content, and the log is either untouched or holds what it
    held (nothing, when it did not exist) followed by at least one record. *)
Definition appends_to_log_only (log_filename : string)
    (before after : gmap string (list string)) : Prop :=
  (forall path, path <> log_filename -> after !! path = before !! path)
  /\ (after !! log_filename = before !! log_filename
      \/ exists records, records <> []
           /\ after !! log_filename
              = Some (default [] (before !! log_filename) ++ records)).

(** The metric trace grew by entries that all satisfy [P]. *)
Definition extends_trace (P : metric * string -> Prop) (w w' : world) : Prop :=
  exists t, metric_trace w' = metric_trace w ++ t /\ Forall P t.

(** Neither the file system nor the metric trace changed. *)
Definition same_files_and_trace (w w' : world) : Prop :=
  fs w' = fs w /\ metric_trace w' = metric_trace w.

(** A call keeps to the log when it leaves the processes started alone and
    changes the file system by appending to the log at most. *)
Definition keeps_to_log (log_filename : string) (w w' : world) : Prop :=
  appends_to_log_only log_filename (fs w) (fs w') /\ spawned w' = spawned w.

(** Since the world [w0], only the log was appended to, and every process
    started was given [log_filename] as its log. *)
Definition run_invariant (log_filename : string) (w0 w : world) : Prop :=
  appends_to_log_only log_filename (fs w0) (fs w)
  /\ exists started,
       spawned w = spawned w0 ++ started
       /\ Forall (fun d => d !! "log_filename" = Some (VStr log_filename)) started.

(** [Q] holds of the result and world when the call returns, [Qx] of the
    world when it exits or raises. *)
Definition ends_with {A} (m : M A) (w : world)
    (Q : A -> world -> Prop) (Qx : world -> Prop) : Prop :=
  match m w with
  | Returned a w' => Q a w'
  | Exited _ w' => Qx w'
  | Raised _ w' => Qx w'
  end.

(** The matcher with cross-check pairs each descriptor of either image with
    at most one of the other, so it returns no more matches than the smaller
    image has descriptors. *)
Definition cross_check_bound (E : env) : Prop :=
  forall d1 d2 n,
    bf_match E d1 d2 = Matches n ->
    n <= Nat.min (descriptor_count d1) (descriptor_count d2).

(** ** A small environment for examples *)

Module Demo.

(** A uniform 2 x 2 array stands for a uniform normalised image. *)
Definition grey (v : Z) : image := Image 2 2 [v; v; v; v].

(** The files of the example: the key, three images, a text file, a file
    without read permission, and a sub-directory [tex/sub], which
    [Image.open] refuses with [IsADirectoryError], an exception the loop does
    not catch. Every other path is missing. *)
Definition load (path : string) : load_result :=
  if String.eqb path "/home/u/key.png" then Loaded (grey 10)
  else if String.eqb path "tex/copy.png" then Loaded (grey 10)
  else if String.eqb path "tex/near.png" then Loaded (grey 20)
  else if String.eqb path "tex/other.png" then Loaded (grey 200)
  else if String.eqb path "tex/notes.txt" then LoadUnidentifiedImage
  else if String.eqb path "tex/locked.png" then LoadPermissionDenied
  else if String.eqb path "tex/sub" then LoadOtherError
  else LoadFileNotFound.

(** Brighter arrays have fewer keypoints; the brightest has none. *)
Definition detect (img : image) : descriptors :=
  match pixels img with
  | v :: _ =>
      if (v <? 15)%Z then Some (repeat [v] 500)
      else if (v <? 100)%Z then Some (repeat [v] 450)
      else None
  | [] => None
  end.

Definition matcher (d1 d2 : descriptors) : match_result :=
  match d1, d2 with
  | Some rows1, Some rows2 => Matches (Nat.min (length rows1) (length rows2))
  | _, _ => CvError
  end.

(** Whole-numbered floats print with one decimal, [0.0] or [100.0]; the
    examples produce no others. *)
Definition show (x : Py.float) : string :=
  match x with
  | Py.Fin q => Py.str_nat (Z.to_nat (Qnum q / Zpos (Qden q))) +:+ ".0"
  | Py.Inf => "inf"
  | Py.NaN => "nan"
  end.

Definition parse_int (s : string) : option Z :=
  if String.eqb s "1" then Some 1%Z
  else if String.eqb s "2" then Some 2%Z
  else if String.eqb s "3" then Some 3%Z
  else if String.eqb s "4" then Some 4%Z
  else if String.eqb s "5" then Some 5%Z
  else None.

Definition listing (pattern : string) : list string :=
  if String.eqb pattern "tex/*" then
    ["tex/copy.png"; "tex/near.png"; "tex/other.png"; "tex/notes.txt";
     "tex/locked.png"]
  else [].

Definition E : env := {|
  load_image := load;
  detect_and_compute := detect;
  bf_match := matcher;
  str_float := show;
  elapsed := "0.0012";
  getcwd := "/home/u";
  isfile := String.eqb "/home/u/key.png";
  isdir := fun path => String.eqb path "tex/" || String.eqb path "empty/";
  glob := listing;
  time_prefix := "11_03_26_10_15_00AM";
  int_of_string := parse_int
|}.

Definition log : string := "11_03_26_10_15_00AM_matches.txt".

Definition w0 : world :=
  {| fs := ∅; stdout := []; spawned := []; metric_trace := [] |}.

End Demo.

(** ** Vocabulary of the further properties *)

(** Every element of the array is an 8-bit intensity. *)
Definition eight_bit (a : image) : Prop :=
  Forall (fun v => (0 <= v <= 255)%Z) (pixels a).

(** Between two worlds nothing happened but printing: the files, the
    processes started and the metrics computed are the same. *)
Definition only_printed (w w' : world) : Prop :=
  fs w' = fs w /\ spawned w' = spawned w /\ metric_trace w' = metric_trace w.

(** The records one pass of the loop body writes for a candidate: none or
    one, as the branch taken and its threshold decide. *)
Definition records_of (E : env) (key_img : image) (compare highlowres : bool)
    (file_name : string) : list string :=
  match load_image E file_name with
  | Loaded tex_img =>
      if compare then
        match bf_match E (detect_and_compute E key_img)
                (detect_and_compute E tex_img) with
        | Matches n => if 400 <? n then [sift_record file_name n] else []
        | CvError => []
        end
      else if highlowres then
        if Py.float_lt (mse key_img tex_img) 1000
        then [mse_record E file_name (mse key_img tex_img)] else []
      else []
  | _ => []
  end.

(** An option entry of [argument_dict] is absent or holds [True]: the loop
    of [main] stores nothing else under the two mode names. *)
Definition unset_or_true (d : gmap string value) (k : string) : Prop :=
  d !! k = None \/ d !! k = Some (VBool true).

(** Exactly one of the two search modes was given. *)
Definition mode_selected (d : gmap string value) : Prop :=
  (d !! "compare" = Some (VBool true) /\ d !! "highlowres" = None)
  \/ (d !! "compare" = None /\ d !! "highlowres" = Some (VBool true)).

(** What the loop over the parameters keeps true of its state: the worker
    count is 0, 2, 3 or 4, the mode entries are absent or [True], and the
    key path is the one stored first. *)
Definition parse_ok (compare_file : string) (st : Z * gmap string value) : Prop :=
  (st.1 = 0 \/ st.1 = 2 \/ st.1 = 3 \/ st.1 = 4)%Z
  /\ unset_or_true st.2 "compare"
  /\ unset_or_true st.2 "highlowres"
  /\ st.2 !! "compare_file" = Some (VStr compare_file).

(** The configuration [main] hands to the scan: one mode, the log named from
    the start time, and the key path built from the first argument. *)
Definition configured (E : env) (argv : list string)
    (config : gmap string value) : Prop :=
  mode_selected config
  /\ config !! "log_filename" = Some (VStr (time_prefix E +:+ "_matches.txt"))
  /\ exists argv_1,
       argv !! 1 = Some argv_1
       /\ config !! "compare_file" = Some (VStr (getcwd E +:+ "/" +:+ argv_1)).

(** The three ways [main] can go: it ends before any scan, having printed at
    most; it scans in its own process; or it starts 2, 3 or 4 workers, one
    per chunk, and returns. *)
Definition main_ends_early (E : env) (argv : list string) (w : world) : Prop :=
  exists w',
    only_printed w w'
    /\ (main E argv w = Exited 1 w' \/ main E argv w = Raised IndexError w').

Definition main_scans_itself (E : env) (argv : list string) (w : world) : Prop :=
  exists config files w1,
    only_printed w w1
    /\ configured E argv config
    /\ main E argv w
       = image_compare_kwargs E (<["filename_list" := VList files]> config) w1.

Definition main_starts_workers (E : env) (argv : list string) (w : world) : Prop :=
  exists config files W w1,
    only_printed w w1
    /\ configured E argv config
    /\ (W = 2 \/ W = 3 \/ W = 4)
    /\ main E argv w
       = Returned tt
           {| fs := fs w1; stdout := stdout w1;
              spawned := spawned w1
                ++ map (fun chunk => <["filename_list" := VList chunk]> config)
                     (filename_list_chunks files W);
              metric_trace := metric_trace w1 |}.

(** The path [main] tests with [isdir] and lists with [glob]: the directory
    argument with backslashes turned into slashes and a slash appended,
    unless it is a slash followed by exactly one character. *)
Definition checked_directory (argv_2 : string) : string :=
  let texture_path := Py.replace_char backslash slash argv_2 in
  if (String.length texture_path =? 2) && String.prefix "/" texture_path
  then texture_path else texture_path +:+ "/".

(** A parameter that names a worker count [main] does not accept: it
    contains [threading=] and what follows its tenth character is no integer,
    or an integer outside 2..4. *)
Definition bad_thread_count (E : env) (parameter : string) : Prop :=
  Py.contains "threading=" parameter = true
  /\ match int_of_string E (Py.str_from (String.length "threading=") parameter) with
     | None => True
     | Some n => (n < 2 \/ 4 < n)%Z
     end.

(** The example environment with a key file that is not an image. *)
Definition unreadable_key_env : env := {|
  load_image := fun path =>
    if String.eqb path "/home/u/key.png" then LoadUnidentifiedImage
    else Demo.load path;
  detect_and_compute := Demo.detect;
  bf_match := Demo.matcher;
  str_float := Demo.show;
  elapsed := "0.0012";
  getcwd := "/home/u";
  isfile := String.eqb "/home/u/key.png";
  isdir := fun path => String.eqb path "tex/";
  glob := Demo.listing;
  time_prefix := "11_03_26_10_15_00AM";
  int_of_string := Demo.parse_int
|}.
(** * Properties *)

(** ** The work partition *)

Section Partition.

Context {A : Type}.
Implicit Types (l : list A) (W k i : nat).

Lemma round_div_multiple (n b : nat) :
  0 < b -> Py.round_div (n - n mod b) b = n / b.
Proof.
  intros Hb. unfold Py.round_div.
  assert (Hm : n - n mod b = n / b * b).
  { pose proof (Nat.div_mod_eq n b). lia. }
  rewrite Hm, Nat.div_mul, Nat.Div0.mod_mul by lia.
  replace (2 * 0) with 0 by lia.
  destruct b; [lia | reflexivity].
Qed.

Lemma share_of_files_div l W :
  0 < W -> share_of_files l W = length l / W.
Proof. intros HW. unfold share_of_files. now apply round_div_multiple. Qed.

Lemma share_fits l W k :
  0 < W -> k <= W -> k * share_of_files l W <= length l.
Proof.
  intros HW Hk. rewrite share_of_files_div by assumption.
  pose proof (Nat.div_mod_eq (length l) W).
  assert (k * (length l / W) <= W * (length l / W)) by (apply Nat.mul_le_mono_r; lia).
  lia.
Qed.

(** Consecutive slices of width [s] glue back into a prefix. *)
Lemma concat_slices l s k :
  concat (map (fun i => Py.slice l ((i - 1) * s) (i * s)) (seq 1 k))
  = take (k * s) l.
Proof.
  induction k as [|k IH].
  - reflexivity.
  - rewrite seq_S, map_app, concat_app, IH. cbn [map concat].
    rewrite app_nil_r. unfold Py.slice.
    replace (1 + k - 1) with k by lia.
    replace (1 + k) with (S k) by lia.
    rewrite <- (take_drop (k * s) (take (S k * s) l)) at 2.
    f_equal. rewrite take_take. f_equal. lia.
Qed.

Lemma chunks_unfold l W :
  0 < W ->
  filename_list_chunks l W
  = map (fun i => Py.slice l ((i - 1) * share_of_files l W) (i * share_of_files l W))
      (seq 1 (W - 1))
    ++ [Py.slice_from l ((W - 1) * share_of_files l W)].
Proof.
  intros HW. unfold filename_list_chunks, Py.range.
  replace (W + 1 - 1) with (S (W - 1)) by lia.
  rewrite seq_S, map_app. cbn [map]. f_equal.
  - apply map_ext_in. intros i Hi. apply in_seq in Hi.
    unfold chunk_of. destruct (Nat.ltb_spec i W); [reflexivity | lia].
  - unfold chunk_of. replace (1 + (W - 1)) with W by lia.
    rewrite Nat.ltb_irrefl. reflexivity.
Qed.

Lemma chunks_length l W : 0 < W -> length (filename_list_chunks l W) = W.
Proof.
  intros HW. rewrite chunks_unfold by assumption.
  rewrite length_app, length_map, length_seq. cbn. lia.
Qed.

Lemma chunks_concat l W : 0 < W -> concat (filename_list_chunks l W) = l.
Proof.
  intros HW. rewrite chunks_unfold by assumption.
  rewrite concat_app, concat_slices. cbn [concat]. rewrite app_nil_r.
  unfold Py.slice_from. apply take_drop.
Qed.

Lemma chunks_lookup l W i :
  i < W ->
  filename_list_chunks l W !! i = Some (chunk_of l W (S i)).
Proof.
  intros Hi. unfold filename_list_chunks, Py.range.
  rewrite list_lookup_fmap.
  replace (W + 1 - 1) with W by lia.
  rewrite lookup_seq_lt by assumption. reflexivity.
Qed.

Lemma chunk_early_length l W i :
  i < W - 1 -> length (chunk_of l W (S i)) = length l / W.
Proof.
  intros Hi. unfold chunk_of.
  destruct (Nat.ltb_spec (S i) W); [| lia].
  unfold Py.slice. rewrite length_drop, length_take.
  pose proof (share_fits l W (S i) ltac:(lia) ltac:(lia)).
  rewrite share_of_files_div in * by lia.
  replace (S i - 1) with i by lia. lia.
Qed.

Lemma chunk_last_length l W :
  0 < W ->
  length (chunk_of l W W) = length l - (W - 1) * (length l / W).
Proof.
  intros HW. unfold chunk_of. rewrite Nat.ltb_irrefl.
  unfold Py.slice_from. rewrite length_drop.
  rewrite share_of_files_div by assumption. reflexivity.
Qed.

End Partition.

(** C1. For a worker count of 2, 3 or 4 the partition has that many chunks,
    the chunks in order concatenate to the candidate list (every candidate
    once, none twice, none missing, each chunk contiguous), each chunk but
    the last has [C / W] candidates and the last has [C - (W - 1) * (C / W)],
    where [C] is the number of candidates and [/] rounds down. *)
Theorem partition_covers_once_with_sizes
    (filename_list : list string) (W : nat) (HW : W = 2 \/ W = 3 \/ W = 4) :
  let chunks := filename_list_chunks filename_list W in
  let C := length filename_list in
  length chunks = W
  /\ concat chunks = filename_list
  /\ (forall i, i < W - 1 ->
        exists chunk, chunks !! i = Some chunk /\ length chunk = C / W)
  /\ (exists chunk, chunks !! (W - 1) = Some chunk
        /\ length chunk = C - (W - 1) * (C / W)).
Proof.
  assert (Hpos : 0 < W) by lia.
  cbv zeta. split; [| split; [| split]].
  - now apply chunks_length.
  - now apply chunks_concat.
  - intros i Hi. exists (chunk_of filename_list W (S i)). split.
    + apply chunks_lookup. lia.
    + now apply chunk_early_length.
  - exists (chunk_of filename_list W W). split.
    + rewrite chunks_lookup by lia. do 2 f_equal. lia.
    + now apply chunk_last_length.
Qed.

Lemma partition_covers_once_with_sizes_witness :
  (4 = 2 \/ 4 = 3 \/ 4 = 4)
  /\ let chunks := filename_list_chunks ["a"; "b"; "c"; "d"; "e"] 4 in
     length chunks = 4
     /\ concat chunks = ["a"; "b"; "c"; "d"; "e"]
     /\ (forall i, i < 4 - 1 ->
           exists chunk, chunks !! i = Some chunk /\ length chunk = 5 / 4)
     /\ (exists chunk, chunks !! (4 - 1) = Some chunk
           /\ length chunk = 5 - (4 - 1) * (5 / 4)).
Proof.
  split; [right; right; reflexivity |].
  apply (partition_covers_once_with_sizes ["a"; "b"; "c"; "d"; "e"] 4).
  right. right. reflexivity.
Defined.

Example chunks_5_4 :
  filename_list_chunks ["a"; "b"; "c"; "d"; "e"] 4
  = [["a"]; ["b"]; ["c"]; ["d"; "e"]].
Proof. reflexivity. Qed.

(** ** The mean squared error *)

Section Mse.

Implicit Types (a b : image) (xs ys : list Z).

Lemma squared_diffs_comm xs ys :
  zip_with (fun x y => ((x - y) ^ 2)%Z) xs ys
  = zip_with (fun x y => ((x - y) ^ 2)%Z) ys xs.
Proof.
  revert ys. induction xs as [|x xs IH]; intros [|y ys]; cbn; try reflexivity.
  f_equal; [ring | apply IH].
Qed.

Lemma squared_error_comm a b : squared_error a b = squared_error b a.
Proof. unfold squared_error. now rewrite squared_diffs_comm. Qed.

Lemma squared_diffs_self xs :
  foldr Z.add 0%Z (zip_with (fun x y => ((x - y) ^ 2)%Z) xs xs) = 0%Z.
Proof.
  induction xs as [|x xs IH]; cbn [zip_with foldr]; [reflexivity |].
  rewrite IH. ring.
Qed.

Lemma squared_error_self a : squared_error a a = 0%Z.
Proof. apply squared_diffs_self. Qed.

Lemma same_shape_size a b :
  same_shape a b = true -> shape0 a * shape1 a = shape0 b * shape1 b.
Proof.
  unfold same_shape. rewrite !andb_true_iff, !Nat.eqb_eq.
  intros [[[-> ->] _] _]. reflexivity.
Qed.

Lemma float_eq_fin_refl (q : Q) : Py.float_eq (Py.Fin q) (Py.Fin q) = true.
Proof. cbn. apply Qeq_bool_iff. reflexivity. Qed.

Lemma mse_self_nonempty a :
  0 < shape0 a * shape1 a -> Py.float_eq (mse a a) (Py.Fin 0) = true.
Proof.
  intros Hn. unfold mse. rewrite squared_error_self.
  destruct (shape0 a * shape1 a); [lia | reflexivity].
Qed.

End Mse.

(** C9. For two arrays of one shape with at least one element, as every
    normalised image is (1024 x 1024), [mse] gives equal values in both
    argument orders, and [mse] of an array with itself equals 0; equality is
    the float comparison [==]. *)
Theorem mse_symmetric_and_zero_on_self (a b : image)
    (Hshape : same_shape a b = true) (Hsize : 0 < shape0 a * shape1 a) :
  Py.float_eq (mse a b) (mse b a) = true
  /\ mse a b = mse b a
  /\ Py.float_eq (mse a a) (Py.Fin 0) = true
  /\ Py.float_eq (mse b b) (Py.Fin 0) = true.
Proof.
  pose proof (same_shape_size a b Hshape) as Hn.
  assert (Hsym : mse a b = mse b a).
  { unfold mse. rewrite <- Hn, (squared_error_comm b a). reflexivity. }
  split; [| split; [exact Hsym | split]].
  - rewrite <- Hsym. unfold mse.
    destruct (shape0 a * shape1 a); [lia | apply float_eq_fin_refl].
  - now apply mse_self_nonempty.
  - apply mse_self_nonempty. lia.
Qed.

Lemma mse_symmetric_and_zero_on_self_witness :
  let a := Image 2 2 [1; 2; 3; 4]%Z in
  let b := Image 2 2 [40; 30; 20; 10]%Z in
  same_shape a b = true
  /\ 0 < shape0 a * shape1 a
  /\ Py.float_eq (mse a b) (mse b a) = true
  /\ mse a b = mse b a
  /\ Py.float_eq (mse a a) (Py.Fin 0) = true
  /\ Py.float_eq (mse b b) (Py.Fin 0) = true.
Proof.
  cbv zeta. split; [reflexivity |]. split; [cbn; lia |].
  apply (mse_symmetric_and_zero_on_self
           (Image 2 2 [1; 2; 3; 4]%Z) (Image 2 2 [40; 30; 20; 10]%Z)).
  - reflexivity.
  - cbn. lia.
Defined.

Example mse_2x2 :
  mse (Image 2 2 [1; 2; 3; 4]%Z) (Image 2 2 [40; 30; 20; 10]%Z)
  = Py.Fin (2630 # 4).
Proof. reflexivity. Qed.

Example mse_empty_is_nan :
  Py.float_eq (mse (Image 0 0 []) (Image 0 0 [])) (Py.Fin 0) = false.
Proof. reflexivity. Qed.

(** ** The scan of one candidate *)

Ltac unfold_M :=
  unfold log_match, when, print, open_append, write, note_metric, start_process,
    raise, exit, mbind, M_bind, bind, mret, M_ret, ret in *.

Section Candidate.

Variable E : env.
Variables (key_img : image) (log_filename : string).
Variables (verbose compare highlowres : bool).

Let body := compare_candidate E key_img log_filename verbose compare highlowres.
Let loop := scan E key_img log_filename verbose compare highlowres.

Lemma scan_cons file_name rest processed w :
  loop (file_name :: rest) processed w
  = match body file_name w with
    | Returned _ w' => loop rest (processed + 1) w'
    | Exited c w' => Exited c w'
    | Raised e w' => Raised e w'
    end.
Proof. reflexivity. Qed.

Lemma unreadable_body file_name w :
  unreadable E file_name = true -> body file_name w = Returned tt w.
Proof.
  unfold unreadable, body, compare_candidate.
  destruct (load_image E file_name); intros H; try discriminate H; reflexivity.
Qed.

End Candidate.

(** The three exceptions the loop catches. A candidate whose loading ends
    in [FileNotFoundError], [UnidentifiedImageError] or [PermissionError] is
    passed over without a trace: the loop body returns with the world as it
    was (no record, no output), and the scan goes on with the remaining
    candidates. *)
Theorem unreadable_candidate_is_skipped (E : env) (key_img : image)
    (log_filename : string) (verbose compare highlowres : bool)
    (file_name : string) (rest : list string) (processed : nat) (w : world)
    (Hskip : unreadable E file_name = true) :
  compare_candidate E key_img log_filename verbose compare highlowres
    file_name w = Returned tt w
  /\ scan E key_img log_filename verbose compare highlowres
       (file_name :: rest) processed w
     = scan E key_img log_filename verbose compare highlowres
         rest (processed + 1) w.
Proof.
  split.
  - now apply unreadable_body.
  - rewrite scan_cons, unreadable_body by assumption. reflexivity.
Qed.

Lemma unreadable_candidate_is_skipped_witness :
  unreadable Demo.E "tex/notes.txt" = true
  /\ compare_candidate Demo.E (Demo.grey 10) Demo.log true false true
       "tex/notes.txt" Demo.w0 = Returned tt Demo.w0
  /\ scan Demo.E (Demo.grey 10) Demo.log true false true
       ("tex/notes.txt" :: ["tex/copy.png"]) 0 Demo.w0
     = scan Demo.E (Demo.grey 10) Demo.log true false true
         ["tex/copy.png"] (0 + 1) Demo.w0.
Proof.
  split; [reflexivity |].
  apply (unreadable_candidate_is_skipped Demo.E (Demo.grey 10) Demo.log
           true false true "tex/notes.txt" ["tex/copy.png"] 0 Demo.w0).
  reflexivity.
Defined.

(** C3, as the specification words it, fails on the code for a candidate
    that is not an image and raises none of the three exceptions the loop
    catches, though the comment of line 77 says such a file is skipped. A
    sub-directory of the scanned directory is in the listing; loading it
    raises [IsADirectoryError], the exception leaves [image_compare], and the
    scan is aborted: the candidate listed after it, a match, is never scanned
    and gets no record. *)
Theorem subdirectory_aborts_the_scan :
  unreadable Demo.E "tex/sub" = false
  /\ image_compare Demo.E (Some ["tex/copy.png"; "tex/sub"; "tex/near.png"])
       "/home/u/key.png" Demo.log false false true Demo.w0
     = Raised UncaughtError
         {| fs := {[ Demo.log := ["tex/copy.png 0.0 " +:+ Py.nl] ]};
            stdout := []; spawned := [];
            metric_trace := [(MSE, "tex/copy.png")] |}
  /\ image_compare Demo.E (Some ["tex/copy.png"; "tex/near.png"])
       "/home/u/key.png" Demo.log false false true Demo.w0
     = Returned tt
         {| fs := {[ Demo.log := ["tex/copy.png 0.0 " +:+ Py.nl;
                                  "tex/near.png 100.0 " +:+ Py.nl] ]};
            stdout := []; spawned := [];
            metric_trace := [(MSE, "tex/copy.png"); (MSE, "tex/near.png")] |}.
Proof. vm_compute. repeat split; reflexivity. Qed.

Example skipped_then_matched :
  scan Demo.E (Demo.grey 10) Demo.log false false true
    ["tex/missing.png"; "tex/notes.txt"; "tex/locked.png"; "tex/copy.png"] 0 Demo.w0
  = Returned 4
      {| fs := {[ Demo.log := ["tex/copy.png 0.0 " +:+ Py.nl] ]};
         stdout := []; spawned := [];
         metric_trace := [(MSE, "tex/copy.png")] |}.
Proof. vm_compute. reflexivity. Qed.

(** ** The MSE branch *)

Lemma float_lt_fin (q k : Q) : Py.float_lt (Py.Fin q) k = true <-> (q < k)%Q.
Proof.
  cbn. rewrite negb_true_iff. split.
  - intros H. apply Qnot_le_lt. intros Hle.
    apply Qle_bool_iff in Hle. congruence.
  - intros H. destruct (Qle_bool k q) eqn:Hle; [| reflexivity].
    apply Qle_bool_iff in Hle. exfalso. exact (Qlt_not_le _ _ H Hle).
Qed.

Lemma log_match_effect (log_filename line : string) (verbose : bool) (w : world) :
  exists w',
    log_match log_filename verbose line w = Returned tt w'
    /\ fs w' = <[log_filename := log_records w log_filename ++ [line]]> (fs w)
    /\ spawned w' = spawned w
    /\ metric_trace w' = metric_trace w.
Proof.
  unfold log_records. unfold_M. destruct verbose; cbn;
    (eexists; split; [reflexivity |]); cbn;
    rewrite insert_insert_eq, lookup_insert_eq; auto.
Qed.

Lemma mse_branch_effect (E : env) (key_img tex_img : image)
    (file_name log_filename : string) (verbose : bool) (w : world) :
  exists w',
    mse_branch E key_img tex_img file_name log_filename verbose w = Returned tt w'
    /\ fs w' = (if Py.float_lt (mse key_img tex_img) 1000
                then <[log_filename := log_records w log_filename
                         ++ [mse_record E file_name (mse key_img tex_img)]]> (fs w)
                else fs w)
    /\ spawned w' = spawned w
    /\ metric_trace w' = metric_trace w ++ [(MSE, file_name)].
Proof.
  unfold mse_branch, mse_record.
  set (score := mse key_img tex_img).
  unfold mbind, M_bind, bind at 1. unfold note_metric at 1.
  set (w1 := {| fs := fs w; stdout := stdout w; spawned := spawned w;
                metric_trace := metric_trace w ++ [(MSE, file_name)] |}).
  unfold bind at 1.
  assert (Hv : exists w2,
            when verbose (print ("MSE: " +:+ str_float E score)) w1 = Returned tt w2
            /\ fs w2 = fs w /\ spawned w2 = spawned w
            /\ metric_trace w2 = metric_trace w1).
  { destruct verbose; unfold_M; cbn; eexists; split; try reflexivity; auto. }
  destruct Hv as (w2 & -> & Hfs & Hsp & Htr).
  destruct (Py.float_lt score 1000).
  - cbn [when].
    destruct (log_match_effect log_filename
                (file_name +:+ " " +:+ str_float E score +:+ " " +:+ Py.nl)
                verbose w2) as (w3 & -> & Hfs3 & Hsp3 & Htr3).
    exists w3. split; [reflexivity |].
    rewrite Hfs3, Hsp3, Htr3, Hsp, Htr. unfold log_records. rewrite Hfs. auto.
  - cbn [when]. exists w2. split; [reflexivity |]. rewrite Htr. auto.
Qed.

(** C2. In highlowres mode (the compare flag off, the highlowres flag on) a
    candidate that loads gets exactly one record appended to the log when its
    MSE against the key is below 1000, and leaves the file system as it was
    when its MSE is 1000 or more (or is not a number). *)
Theorem mse_threshold_decides_record (E : env) (key_img tex_img : image)
    (log_filename : string) (verbose : bool) (file_name : string) (w : world)
    (Hload : load_image E file_name = Loaded tex_img) :
  exists w',
    compare_candidate E key_img log_filename verbose false true file_name w
    = Returned tt w'
    /\ (Py.float_lt (mse key_img tex_img) 1000 = true ->
        log_records w' log_filename
        = log_records w log_filename
          ++ [mse_record E file_name (mse key_img tex_img)])
    /\ (Py.float_lt (mse key_img tex_img) 1000 = false -> fs w' = fs w).
Proof.
  unfold compare_candidate. rewrite Hload.
  destruct (mse_branch_effect E key_img tex_img file_name log_filename verbose w)
    as (w' & Hrun & Hfs & _ & _).
  exists w'. split; [exact Hrun |]. split; intros Hlt; rewrite Hlt in Hfs.
  - unfold log_records at 1. rewrite Hfs, lookup_insert_eq. reflexivity.
  - exact Hfs.
Qed.

Lemma mse_threshold_decides_record_witness :
  load_image Demo.E "tex/near.png" = Loaded (Demo.grey 20)
  /\ exists w',
       compare_candidate Demo.E (Demo.grey 10) Demo.log false false true
         "tex/near.png" Demo.w0 = Returned tt w'
       /\ (Py.float_lt (mse (Demo.grey 10) (Demo.grey 20)) 1000 = true ->
           log_records w' Demo.log
           = log_records Demo.w0 Demo.log
             ++ [mse_record Demo.E "tex/near.png"
                   (mse (Demo.grey 10) (Demo.grey 20))])
       /\ (Py.float_lt (mse (Demo.grey 10) (Demo.grey 20)) 1000 = false ->
           fs w' = fs Demo.w0).
Proof.
  split; [reflexivity |].
  apply (mse_threshold_decides_record Demo.E (Demo.grey 10) (Demo.grey 20)
           Demo.log false "tex/near.png" Demo.w0).
  reflexivity.
Defined.

Example mse_near_is_logged :
  Py.float_lt (mse (Demo.grey 10) (Demo.grey 20)) 1000 = true
  /\ Py.float_lt (mse (Demo.grey 10) (Demo.grey 200)) 1000 = false.
Proof. split; reflexivity. Qed.

Example mse_exactly_1000_is_not_logged :
  mse (Image 2 2 [0; 0; 0; 0]%Z) (Image 2 2 [60; 20; 0; 0]%Z) = Py.Fin (4000 # 4)
  /\ Py.float_lt (Py.Fin (4000 # 4)) 1000 = false.
Proof. split; reflexivity. Qed.

(** ** The SIFT branch *)

Lemma sift_branch_effect (E : env) (key_img tex_img : image)
    (file_name log_filename : string) (verbose : bool) (w : world) :
  exists w',
    sift_branch E key_img tex_img file_name log_filename verbose w = Returned tt w'
    /\ fs w' = match bf_match E (detect_and_compute E key_img)
                       (detect_and_compute E tex_img) with
               | Matches n =>
                   if 400 <? n
                   then <[log_filename := log_records w log_filename
                            ++ [sift_record file_name n]]> (fs w)
                   else fs w
               | CvError => fs w
               end
    /\ spawned w' = spawned w
    /\ metric_trace w' = metric_trace w ++ [(SIFT, file_name)].
Proof.
  unfold sift_branch, sift_record.
  unfold mbind, M_bind, bind at 1. unfold note_metric at 1.
  set (w1 := {| fs := fs w; stdout := stdout w; spawned := spawned w;
                metric_trace := metric_trace w ++ [(SIFT, file_name)] |}).
  destruct (bf_match E _ _) as [n|].
  - unfold bind at 1.
    assert (Hlog : exists w2,
              when (400 <? n)
                (log_match log_filename verbose
                   (file_name +:+ " " +:+ " SIFT Matches:" +:+ Py.str_nat n +:+ Py.nl))
                w1 = Returned tt w2
              /\ fs w2 = (if 400 <? n
                          then <[log_filename := log_records w log_filename
                                   ++ [file_name +:+ " " +:+ " SIFT Matches:"
                                       +:+ Py.str_nat n +:+ Py.nl]]> (fs w)
                          else fs w)
              /\ spawned w2 = spawned w /\ metric_trace w2 = metric_trace w1).
    { destruct (400 <? n); cbn [when].
      - destruct (log_match_effect log_filename
                    (file_name +:+ " " +:+ " SIFT Matches:" +:+ Py.str_nat n +:+ Py.nl)
                    verbose w1) as (w2 & -> & Hfs & Hsp & Htr).
        exists w2. split; [reflexivity |]. rewrite Hfs, Hsp, Htr. auto.
      - exists w1. auto. }
    destruct Hlog as (w2 & -> & Hfs & Hsp & Htr).
    destruct verbose; unfold_M; cbn; eexists; (split; [reflexivity |]); cbn;
      rewrite Hfs, Hsp, Htr; auto.
  - exists w1. auto.
Qed.

(** C4. In compare mode, when the matcher raises its error, or when either
    image has at most 400 descriptors (none included) so that the matcher,
    which returns no more matches than the smaller descriptor set has rows,
    cannot pass the threshold, the candidate gets no record: the loop body
    returns with the file system as it was and the scan goes on with the
    remaining candidates. *)
Theorem sift_failure_is_no_match (E : env) (key_img tex_img : image)
    (log_filename : string) (verbose highlowres : bool)
    (file_name : string) (rest : list string) (processed : nat) (w : world)
    (Hmatcher : cross_check_bound E)
    (Hload : load_image E file_name = Loaded tex_img)
    (Hfail : bf_match E (detect_and_compute E key_img)
               (detect_and_compute E tex_img) = CvError
             \/ descriptor_count (detect_and_compute E key_img) <= 400
             \/ descriptor_count (detect_and_compute E tex_img) <= 400) :
  exists w',
    compare_candidate E key_img log_filename verbose true highlowres file_name w
    = Returned tt w'
    /\ fs w' = fs w
    /\ scan E key_img log_filename verbose true highlowres
         (file_name :: rest) processed w
       = scan E key_img log_filename verbose true highlowres
           rest (processed + 1) w'.
Proof.
  destruct (sift_branch_effect E key_img tex_img file_name log_filename verbose w)
    as (w' & Hrun & Hfs & _ & _).
  assert (Hbody : compare_candidate E key_img log_filename verbose true highlowres
                    file_name w = Returned tt w').
  { unfold compare_candidate. rewrite Hload. exact Hrun. }
  exists w'. split; [exact Hbody |]. split.
  - rewrite Hfs.
    destruct (bf_match E _ _) as [n|] eqn:Hm; [| reflexivity].
    apply Hmatcher in Hm.
    destruct (Nat.ltb_spec 400 n); [| reflexivity].
    destruct Hfail as [Hf | [Hf | Hf]]; [discriminate Hf | lia | lia].
  - rewrite scan_cons, Hbody. reflexivity.
Qed.

Lemma demo_matcher_bound : cross_check_bound Demo.E.
Proof.
  intros [rows1|] [rows2|] n H; cbn in H; try discriminate H.
  injection H as <-. cbn. lia.
Qed.

Lemma sift_failure_is_no_match_witness :
  cross_check_bound Demo.E
  /\ load_image Demo.E "tex/other.png" = Loaded (Demo.grey 200)
  /\ (bf_match Demo.E (detect_and_compute Demo.E (Demo.grey 10))
        (detect_and_compute Demo.E (Demo.grey 200)) = CvError
      \/ descriptor_count (detect_and_compute Demo.E (Demo.grey 10)) <= 400
      \/ descriptor_count (detect_and_compute Demo.E (Demo.grey 200)) <= 400)
  /\ exists w',
       compare_candidate Demo.E (Demo.grey 10) Demo.log false true false
         "tex/other.png" Demo.w0 = Returned tt w'
       /\ fs w' = fs Demo.w0
       /\ scan Demo.E (Demo.grey 10) Demo.log false true false
            ("tex/other.png" :: ["tex/copy.png"]) 0 Demo.w0
          = scan Demo.E (Demo.grey 10) Demo.log false true false
              ["tex/copy.png"] (0 + 1) w'.
Proof.
  split; [exact demo_matcher_bound |].
  split; [reflexivity |].
  split; [left; reflexivity |].
  apply (sift_failure_is_no_match Demo.E (Demo.grey 10) (Demo.grey 200)
           Demo.log false false "tex/other.png" ["tex/copy.png"] 0 Demo.w0).
  - exact demo_matcher_bound.
  - reflexivity.
  - left. reflexivity.
Defined.

(** ** What one pass of the loop body does to the world *)

Lemma compare_candidate_effect (E : env) (key_img : image)
    (log_filename : string) (verbose compare highlowres : bool)
    (file_name : string) (w : world) :
  let w' := final_world
              (compare_candidate E key_img log_filename verbose compare
                 highlowres file_name) w in
  spawned w' = spawned w
  /\ match load_image E file_name with
     | Loaded tex_img =>
         if compare then
           fs w' = match bf_match E (detect_and_compute E key_img)
                           (detect_and_compute E tex_img) with
                   | Matches n =>
                       if 400 <? n
                       then <[log_filename := log_records w log_filename
                                ++ [sift_record file_name n]]> (fs w)
                       else fs w
                   | CvError => fs w
                   end
           /\ metric_trace w' = metric_trace w ++ [(SIFT, file_name)]
         else if highlowres then
           fs w' = (if Py.float_lt (mse key_img tex_img) 1000
                    then <[log_filename := log_records w log_filename
                             ++ [mse_record E file_name (mse key_img tex_img)]]> (fs w)
                    else fs w)
           /\ metric_trace w' = metric_trace w ++ [(MSE, file_name)]
         else w' = w
     | _ => w' = w
     end.
Proof.
  unfold final_world, compare_candidate.
  destruct (load_image E file_name) as [tex_img| | | |]; cbn; auto.
  destruct compare.
  - destruct (sift_branch_effect E key_img tex_img file_name log_filename verbose w)
      as (w' & -> & Hfs & Hsp & Htr). auto.
  - destruct highlowres; [| cbn; auto].
    destruct (mse_branch_effect E key_img tex_img file_name log_filename verbose w)
      as (w' & -> & Hfs & Hsp & Htr). auto.
Qed.

(** A relation between the world before and after that is reflexive,
    transitive and kept by the loop body is kept by the whole loop, however
    the loop ends. *)
Section LoopInvariant.

Variable E : env.
Variable log_filename : string.
Variables verbose compare highlowres : bool.
Variable R : world -> world -> Prop.
Hypothesis R_refl : forall w, R w w.
Hypothesis R_trans : forall w1 w2 w3, R w1 w2 -> R w2 w3 -> R w1 w3.
Hypothesis R_body : forall key_img file_name w,
  R w (final_world (compare_candidate E key_img log_filename verbose compare
                      highlowres file_name) w).

Lemma scan_keeps (key_img : image) (filename_list : list string)
    (processed : nat) (w : world) :
  R w (final_world (scan E key_img log_filename verbose compare highlowres
                      filename_list processed) w).
Proof.
  revert processed w. induction filename_list as [|file_name rest IH];
    intros processed w.
  - apply R_refl.
  - pose proof (R_body key_img file_name w) as Hb.
    unfold final_world in *. rewrite scan_cons.
    destruct (compare_candidate _ _ _ _ _ _ _ w) as [[] w1|c w1|e w1];
      try exact Hb.
    eapply R_trans; [exact Hb | apply IH].
Qed.

Hypothesis R_print : forall s w, R w (final_world (print s) w).

Lemma image_compare_keeps (filename_list : option (list string))
    (compare_file : string) (w : world) :
  R w (final_world (image_compare E filename_list compare_file log_filename
                      verbose compare highlowres) w).
Proof.
  unfold image_compare.
  destruct (load_image E compare_file) as [key| | | |];
    try apply R_refl; try apply (R_print _ w).
  destruct filename_list as [files|]; [| apply R_refl].
  pose proof (scan_keeps key files 0 w) as Hs.
  unfold final_world in *. unfold mbind, M_bind, bind.
  destruct (scan _ _ _ _ _ _ _ _ w) as [processed w1|c w1|e w1]; try exact Hs.
  destruct verbose; cbn [when].
  - eapply R_trans; [exact Hs |].
    eapply R_trans; [apply (R_print ("Ran in " +:+ elapsed E +:+ " seconds") w1) |].
    apply (R_print ("Processed " +:+ Py.str_nat processed +:+ " files")).
  - exact Hs.
Qed.

End LoopInvariant.

(** ** The format of a Match Record *)

(** C5, as the code has it. One pass of the loop body writes at most one
    record. A record of the MSE branch is the candidate path, one space, the
    score, one space and a line feed; a record of the SIFT branch is the
    candidate path, two spaces, the text [SIFT Matches:], the match count
    (above 400) and a line feed. *)
Theorem match_record_format (E : env) (key_img : image)
    (log_filename : string) (verbose compare highlowres : bool)
    (file_name : string) (w : world) :
  let w' := final_world
              (compare_candidate E key_img log_filename verbose compare
                 highlowres file_name) w in
  fs w' = fs w
  \/ (exists tex_img,
        load_image E file_name = Loaded tex_img
        /\ compare = false /\ highlowres = true
        /\ log_records w' log_filename
           = log_records w log_filename
             ++ [file_name +:+ " " +:+ str_float E (mse key_img tex_img)
                 +:+ " " +:+ Py.nl])
  \/ (exists n,
        compare = true /\ 400 < n
        /\ log_records w' log_filename
           = log_records w log_filename
             ++ [file_name +:+ " " +:+ " SIFT Matches:" +:+ Py.str_nat n
                 +:+ Py.nl]).
Proof.
  intros w'.
  destruct (compare_candidate_effect E key_img log_filename verbose compare
              highlowres file_name w) as [_ H].
  fold w' in H.
  destruct (load_image E file_name) as [tex_img| | | |] eqn:Hload;
    try (left; now rewrite H).
  destruct compare.
  - destruct H as [Hfs _].
    destruct (bf_match E _ _) as [n|]; [| now left].
    destruct (Nat.ltb_spec 400 n); [| now left].
    right. right. exists n. split; [reflexivity |]. split; [assumption |].
    unfold log_records at 1. rewrite Hfs, lookup_insert_eq. reflexivity.
  - destruct highlowres; [| left; now rewrite H].
    destruct H as [Hfs _].
    destruct (Py.float_lt _ _); [| now left].
    right. left. exists tex_img. repeat (split; [reflexivity |]).
    unfold log_records at 1. rewrite Hfs, lookup_insert_eq. reflexivity.
Qed.

(** C5, as the specification words it, fails in highlowres mode: the record
    of an exact copy of the key is the path, a space, the score, a space and
    a line feed, which differs from the path, a space, the score and a line
    feed. *)
Lemma mse_record_has_trailing_space :
  log_records
    (final_world
       (compare_candidate Demo.E (Demo.grey 10) Demo.log false false true
          "tex/copy.png") Demo.w0) Demo.log
  = ["tex/copy.png 0.0 " +:+ Py.nl]
  /\ str_float Demo.E (mse (Demo.grey 10) (Demo.grey 10)) = "0.0"
  /\ String.eqb ("tex/copy.png 0.0 " +:+ Py.nl)
       ("tex/copy.png" +:+ " "
        +:+ str_float Demo.E (mse (Demo.grey 10) (Demo.grey 10)) +:+ Py.nl)
     = false.
Proof. vm_compute. repeat split; reflexivity. Qed.

Example sift_record_example :
  log_records
    (final_world
       (compare_candidate Demo.E (Demo.grey 10) Demo.log false true false
          "tex/near.png") Demo.w0) Demo.log
  = ["tex/near.png  SIFT Matches:450" +:+ Py.nl].
Proof. vm_compute. reflexivity. Qed.

(** ** Which metric runs *)

Section MetricTrace.

Variable P : metric * string -> Prop.

Lemma extends_trace_refl w : extends_trace P w w.
Proof. exists []. split; [now rewrite app_nil_r | constructor]. Qed.

Lemma extends_trace_trans w1 w2 w3 :
  extends_trace P w1 w2 -> extends_trace P w2 w3 -> extends_trace P w1 w3.
Proof.
  intros (t1 & H1 & F1) (t2 & H2 & F2). exists (t1 ++ t2). split.
  - now rewrite H2, H1, app_assoc.
  - now apply Forall_app.
Qed.

Lemma extends_trace_print s w : extends_trace P w (final_world (print s) w).
Proof. exists []. split; [cbn; now rewrite app_nil_r | constructor]. Qed.

End MetricTrace.

Lemma candidate_trace_grows_by_one (E : env) (key_img : image)
    (log_filename : string) (verbose compare highlowres : bool)
    (file_name : string) (w : world) :
  exists t,
    metric_trace (final_world
                    (compare_candidate E key_img log_filename verbose compare
                       highlowres file_name) w)
    = metric_trace w ++ t
    /\ length t <= 1
    /\ Forall (fun e => e.1 = if compare then SIFT else MSE) t.
Proof.
  destruct (compare_candidate_effect E key_img log_filename verbose compare
              highlowres file_name w) as [_ H].
  set (w' := final_world _ w) in *.
  destruct (load_image E file_name);
    try (exists []; rewrite H, app_nil_r; repeat split; [cbn; lia | constructor]).
  destruct compare.
  - destruct H as [_ ->]. eexists. split; [reflexivity |].
    split; [cbn; lia | repeat constructor].
  - destruct highlowres.
    + destruct H as [_ ->]. eexists. split; [reflexivity |].
      split; [cbn; lia | repeat constructor].
    + exists []. rewrite H, app_nil_r. repeat split; [cbn; lia | constructor].
Qed.

Lemma body_returns (E : env) (key_img : image) (log_filename : string)
    (verbose compare highlowres : bool) (file_name : string) (w : world) :
  load_image E file_name <> LoadOtherError ->
  exists w',
    compare_candidate E key_img log_filename verbose compare highlowres
      file_name w = Returned tt w'.
Proof.
  intros Hok. unfold compare_candidate.
  destruct (load_image E file_name) as [tex_img| | | |];
    try (eexists; reflexivity); [| congruence].
  destruct compare; [| destruct highlowres].
  - destruct (sift_branch_effect E key_img tex_img file_name log_filename verbose w)
      as (w' & H & _). eauto.
  - destruct (mse_branch_effect E key_img tex_img file_name log_filename verbose w)
      as (w' & H & _). eauto.
  - eexists. reflexivity.
Qed.

Lemma scan_sift_trace (E : env) (key_img : image) (log_filename : string)
    (verbose highlowres : bool) (filename_list : list string) :
  Forall (fun file_name => load_image E file_name <> LoadOtherError) filename_list ->
  forall processed w,
  exists w',
    scan E key_img log_filename verbose true highlowres filename_list processed w
    = Returned (processed + length filename_list) w'
    /\ metric_trace w'
       = metric_trace w
         ++ map (fun file_name => (SIFT, file_name))
              (List.filter (loads E) filename_list).
Proof.
  induction 1 as [|file_name rest Hok _ IH]; intros processed w.
  - exists w. cbn. rewrite app_nil_r. unfold mret, M_ret, ret.
    split; [f_equal; lia | reflexivity].
  - rewrite scan_cons.
    destruct (compare_candidate_effect E key_img log_filename verbose true
                highlowres file_name w) as [_ Heff].
    destruct (body_returns E key_img log_filename verbose true highlowres
                file_name w Hok) as (w1 & Hb).
    unfold final_world in Heff. rewrite Hb in Heff. rewrite Hb.
    destruct (IH (processed + 1) w1) as (w2 & -> & Htr).
    exists w2. split; [f_equal; cbn; lia |].
    rewrite Htr. cbn [List.filter]. unfold loads at 2.
    destruct (load_image E file_name);
      try (rewrite Heff; reflexivity).
    destruct Heff as [_ ->]. cbn [map]. now rewrite <- app_assoc.
Qed.

(** C10. One pass of the loop body computes at most one metric. With the
    compare flag on, the SIFT branch runs for every candidate that loads,
    whatever the highlowres flag says: the pass computes SIFT for that
    candidate and nothing else, and what it writes is what the SIFT branch
    decides; a call that completes computes SIFT once for each candidate that
    loads, in list order, and every metric a call computes, however it ends,
    is SIFT. With the compare flag off and the highlowres flag on the pass
    computes MSE. With both flags off a call computes no metric and leaves the
    file system as it was, so it writes no record. *)
Theorem at_most_one_metric_branch (E : env)
    (filename_list : option (list string)) (compare_file log_filename : string)
    (key_img : image) (file_name : string) (verbose : bool) (w : world) :
  (forall compare highlowres,
     exists t,
       metric_trace (final_world
                       (compare_candidate E key_img log_filename verbose
                          compare highlowres file_name) w)
       = metric_trace w ++ t
       /\ length t <= 1)
  /\ (forall highlowres,
        exists t,
          metric_trace (final_world
                          (image_compare E filename_list compare_file
                             log_filename verbose true highlowres) w)
          = metric_trace w ++ t
          /\ Forall (fun e => e.1 = SIFT) t)
  /\ (let w' := final_world
                  (image_compare E filename_list compare_file log_filename
                     verbose false false) w in
      fs w' = fs w /\ metric_trace w' = metric_trace w)
  /\ (forall highlowres tex_img,
        load_image E file_name = Loaded tex_img ->
        let w' := final_world
                    (compare_candidate E key_img log_filename verbose true
                       highlowres file_name) w in
        metric_trace w' = metric_trace w ++ [(SIFT, file_name)]
        /\ fs w' = match bf_match E (detect_and_compute E key_img)
                          (detect_and_compute E tex_img) with
                   | Matches n =>
                       if 400 <? n
                       then <[log_filename := log_records w log_filename
                                ++ [sift_record file_name n]]> (fs w)
                       else fs w
                   | CvError => fs w
                   end)
  /\ (forall highlowres files,
        load_image E compare_file = Loaded key_img ->
        Forall (fun f => load_image E f <> LoadOtherError) files ->
        exists w',
          image_compare E (Some files) compare_file log_filename verbose true
            highlowres w = Returned tt w'
          /\ metric_trace w'
             = metric_trace w
               ++ map (fun f => (SIFT, f)) (List.filter (loads E) files))
  /\ (forall tex_img,
        load_image E file_name = Loaded tex_img ->
        metric_trace (final_world
                        (compare_candidate E key_img log_filename verbose
                           false true file_name) w)
        = metric_trace w ++ [(MSE, file_name)]).
Proof.
  split; [| split; [| split; [| split; [| split]]]].
  - intros compare highlowres.
    destruct (candidate_trace_grows_by_one E key_img log_filename verbose
                compare highlowres file_name w) as (t & Ht & Hlen & _).
    exists t. auto.
  - intros highlowres.
    apply (image_compare_keeps E log_filename verbose true highlowres
             (extends_trace (fun e => e.1 = SIFT))).
    + apply extends_trace_refl.
    + apply extends_trace_trans.
    + intros key f w0.
      destruct (candidate_trace_grows_by_one E key log_filename verbose
                  true highlowres f w0) as (t & Ht & _ & Hall).
      exists t. auto.
    + apply extends_trace_print.
  - apply (image_compare_keeps E log_filename verbose false false
             same_files_and_trace).
    + intros w0. split; reflexivity.
    + intros w1 w2 w3 [H1 H1'] [H2 H2']. split; congruence.
    + intros key f w0.
      destruct (compare_candidate_effect E key log_filename verbose false false
                  f w0) as [_ H].
      set (w' := final_world _ w0) in *.
      destruct (load_image E f); rewrite H; split; reflexivity.
    + intros s w0. split; reflexivity.
  - intros highlowres tex_img Hload. cbv zeta.
    destruct (compare_candidate_effect E key_img log_filename verbose true
                highlowres file_name w) as [_ H].
    rewrite Hload in H. destruct H as [Hfs Htr]. split; assumption.
  - intros highlowres files Hkey Hok.
    destruct (scan_sift_trace E key_img log_filename verbose highlowres files
                Hok 0 w) as (w1 & Hscan & Htr).
    unfold image_compare. rewrite Hkey.
    unfold mbind, M_bind, bind at 1. rewrite Hscan.
    destruct verbose; cbn [when]; unfold_M; cbn;
      eexists; (split; [reflexivity |]); exact Htr.
  - intros tex_img Hload.
    destruct (compare_candidate_effect E key_img log_filename verbose false
                true file_name w) as [_ H].
    rewrite Hload in H. destruct H as [_ Htr]. exact Htr.
Qed.

Example compare_wins_over_highlowres :
  metric_trace
    (final_world
       (image_compare Demo.E (Some ["tex/copy.png"; "tex/near.png"])
          "/home/u/key.png" Demo.log false true true) Demo.w0)
  = [(SIFT, "tex/copy.png"); (SIFT, "tex/near.png")].
Proof. vm_compute. reflexivity. Qed.

(** ** The processed count *)

Lemma scan_returns_count (E : env) (key_img : image) (log_filename : string)
    (verbose compare highlowres : bool) (filename_list : list string) :
  Forall (fun file_name => load_image E file_name <> LoadOtherError) filename_list ->
  forall processed w,
  exists w',
    scan E key_img log_filename verbose compare highlowres filename_list
      processed w
    = Returned (processed + length filename_list) w'.
Proof.
  induction 1 as [|file_name rest Hok _ IH]; intros processed w.
  - exists w. cbn. unfold mret, M_ret, ret. f_equal. lia.
  - rewrite scan_cons.
    destruct (body_returns E key_img log_filename verbose compare highlowres
                file_name w Hok) as (w1 & ->).
    destruct (IH (processed + 1) w1) as (w2 & ->).
    exists w2. f_equal. cbn. lia.
Qed.

(** C7, as the code has it. The count goes up at the top of every pass of
    the loop, before the candidate is loaded. When the key loads and no
    candidate fails with an exception the loop does not catch, the scan
    completes, the count it ends with is the length of the whole candidate
    list, skipped candidates included, and that is the number the last line
    of the verbose summary shows. *)
Theorem processed_counts_every_candidate (E : env)
    (filename_list : list string) (compare_file log_filename : string)
    (key_img : image) (compare highlowres : bool) (w : world)
    (Hkey : load_image E compare_file = Loaded key_img)
    (Hok : Forall (fun file_name => load_image E file_name <> LoadOtherError)
             filename_list) :
  (exists w1,
     scan E key_img log_filename true compare highlowres filename_list 0 w
     = Returned (length filename_list) w1)
  /\ (exists w',
        image_compare E (Some filename_list) compare_file log_filename
          true compare highlowres w = Returned tt w'
        /\ last (stdout w')
           = Some ("Processed " +:+ Py.str_nat (length filename_list)
                   +:+ " files")).
Proof.
  destruct (scan_returns_count E key_img log_filename true compare highlowres
              filename_list Hok 0 w) as (w1 & Hscan).
  cbn in Hscan. split; [eauto |].
  unfold image_compare. rewrite Hkey.
  unfold mbind, M_bind, bind at 1. rewrite Hscan. cbn [when].
  unfold_M. cbn. eexists. split; [reflexivity |]. cbn.
  rewrite <- app_assoc. cbn.
  change (stdout w1 ++ [?a; ?b]) with (stdout w1 ++ [a] ++ [b]).
  rewrite app_assoc. apply last_snoc.
Qed.

Lemma demo_listing_loads :
  Forall (fun file_name => load_image Demo.E file_name <> LoadOtherError)
    ["tex/notes.txt"; "tex/copy.png"].
Proof. repeat constructor; discriminate. Qed.

Lemma processed_counts_every_candidate_witness :
  load_image Demo.E "/home/u/key.png" = Loaded (Demo.grey 10)
  /\ Forall (fun file_name => load_image Demo.E file_name <> LoadOtherError)
       ["tex/notes.txt"; "tex/copy.png"]
  /\ (exists w1,
        scan Demo.E (Demo.grey 10) Demo.log true false true
          ["tex/notes.txt"; "tex/copy.png"] 0 Demo.w0
        = Returned (length ["tex/notes.txt"; "tex/copy.png"]) w1)
  /\ (exists w',
        image_compare Demo.E (Some ["tex/notes.txt"; "tex/copy.png"])
          "/home/u/key.png" Demo.log true false true Demo.w0 = Returned tt w'
        /\ last (stdout w')
           = Some ("Processed "
                   +:+ Py.str_nat (length ["tex/notes.txt"; "tex/copy.png"])
                   +:+ " files")).
Proof.
  split; [reflexivity |].
  split; [exact demo_listing_loads |].
  apply (processed_counts_every_candidate Demo.E
           ["tex/notes.txt"; "tex/copy.png"] "/home/u/key.png" Demo.log
           (Demo.grey 10) false true Demo.w0).
  - reflexivity.
  - exact demo_listing_loads.
Defined.

(** C7, as the specification words it, fails: of two candidates, one of
    which is not an image and is skipped, the summary reports two processed
    files, while one candidate was not skipped. *)
Lemma skipped_candidate_is_counted :
  unreadable Demo.E "tex/notes.txt" = true
  /\ stdout
       (final_world
          (image_compare Demo.E (Some ["tex/notes.txt"; "tex/copy.png"])
             "/home/u/key.png" Demo.log true false true) Demo.w0)
     = ["MSE: 0.0"; "11_03_26_10_15_00AM_matches.txt";
        "Ran in 0.0012 seconds"; "Processed 2 files"]
  /\ length (List.filter (fun file_name => negb (unreadable Demo.E file_name))
               ["tex/notes.txt"; "tex/copy.png"]) = 1.
Proof. vm_compute. repeat split; reflexivity. Qed.

(** ** The workers and their configuration *)

Lemma assign_and_start_effect (chunks : list (list string)) (i : nat)
    (chunk : list string) (argument_dict : gmap string value) (w : world) :
  chunks !! i = Some chunk ->
  assign_and_start chunks i argument_dict w
  = Returned (<["filename_list" := VList chunk]> argument_dict)
      {| fs := fs w; stdout := stdout w;
         spawned := spawned w ++ [<["filename_list" := VList chunk]> argument_dict];
         metric_trace := metric_trace w |}.
Proof. intros H. unfold assign_and_start. rewrite H. reflexivity. Qed.

Lemma multithreading_compare_spawns (filename_list : list string)
    (argument_dict : gmap string value) (W : nat) (w : world) :
  W = 2 \/ W = 3 \/ W = 4 ->
  exists d',
    multithreading_compare filename_list argument_dict W w
    = Returned d'
        {| fs := fs w; stdout := stdout w;
           spawned := spawned w
             ++ map (fun chunk => <["filename_list" := VList chunk]> argument_dict)
                  (filename_list_chunks filename_list W);
           metric_trace := metric_trace w |}.
Proof.
  intros HW. unfold multithreading_compare.
  assert (Hall : filename_list_chunks filename_list W
                 = map (chunk_of filename_list W) (seq 1 W)).
  { unfold filename_list_chunks, Py.range. do 2 f_equal. lia. }
  rewrite Hall.
  destruct HW as [-> | [-> | ->]]; cbn [Nat.eqb Nat.leb seq map];
    unfold assign_and_start, start_process, mbind, M_bind, bind, mret, M_ret, ret;
    cbn [lookup list_lookup fs stdout spawned metric_trace];
    rewrite ?insert_insert_eq, <- ?app_assoc;
    eexists; reflexivity.
Qed.

(** C8. With 2, 3 or 4 workers, the log name is put into the configuration
    before the candidate list is split, and the processes started are, in
    order, one per chunk: each holds that configuration with the entry
    [filename_list] set to its chunk, so all hold one log name and agree with
    the configuration on every other entry. *)
Theorem workers_share_log_and_configuration (E : env) (texture_path : string)
    (W : nat) (argument_dict : gmap string value) (w : world)
    (HW : W = 2 \/ W = 3 \/ W = 4) :
  let log_filename := time_prefix E +:+ "_matches.txt" in
  let config := <["log_filename" := VStr log_filename]> argument_dict in
  let chunks := filename_list_chunks (glob E (texture_path +:+ "*")) W in
  exists w' workers,
    dispatch E texture_path (Z.of_nat W) argument_dict w = Returned tt w'
    /\ spawned w' = spawned w ++ workers
    /\ length workers = W
    /\ Forall2 (fun d chunk => d = <["filename_list" := VList chunk]> config)
         workers chunks
    /\ Forall (fun d =>
                 d !! "log_filename" = Some (VStr log_filename)
                 /\ forall k, k <> "filename_list" -> d !! k = config !! k)
         workers.
Proof.
  cbv zeta. unfold dispatch.
  set (config := <["log_filename" := VStr (time_prefix E +:+ "_matches.txt")]>
                   argument_dict).
  set (files := glob E (texture_path +:+ "*")).
  set (warn := when (length files =? 0) _).
  assert (Hwarn : exists w1, warn w = Returned tt w1 /\ spawned w1 = spawned w).
  { unfold warn. destruct (length files =? 0); unfold_M; eauto. }
  destruct Hwarn as (w1 & Hw1 & Hsp1).
  unfold mbind, M_bind, bind at 1. rewrite Hw1.
  replace (negb (Z.of_nat W =? 0)%Z) with true
    by (symmetry; apply negb_true_iff, Z.eqb_neq; lia).
  rewrite Nat2Z.id.
  destruct (multithreading_compare_spawns files config W w1 HW) as (d' & Hrun).
  unfold bind. rewrite Hrun. unfold mret, M_ret, ret.
  eexists. eexists. split; [reflexivity |]. cbn [spawned].
  split; [now rewrite Hsp1 |].
  split; [rewrite length_map; apply chunks_length; lia |].
  split.
  - apply Forall2_fmap_l, Forall_Forall2_diag, Forall_forall. reflexivity.
  - apply Forall_fmap, Forall_forall. intros chunk _. cbn. split.
    + rewrite lookup_insert_ne by discriminate. apply lookup_insert_eq.
    + intros k Hk. now rewrite lookup_insert_ne.
Qed.

Lemma workers_share_log_and_configuration_witness :
  (4 = 2 \/ 4 = 3 \/ 4 = 4)
  /\ exists w' workers,
       dispatch Demo.E "tex/" (Z.of_nat 4) {["highlowres" := VBool true]} Demo.w0
       = Returned tt w'
       /\ spawned w' = spawned Demo.w0 ++ workers
       /\ length workers = 4
       /\ Forall2
            (fun d chunk =>
               d = <["filename_list" := VList chunk]>
                     (<["log_filename" := VStr (time_prefix Demo.E +:+ "_matches.txt")]>
                        {["highlowres" := VBool true]}))
            workers
            (filename_list_chunks (glob Demo.E ("tex/" +:+ "*")) 4)
       /\ Forall
            (fun d =>
               d !! "log_filename"
               = Some (VStr (time_prefix Demo.E +:+ "_matches.txt"))
               /\ forall k, k <> "filename_list" ->
                    d !! k
                    = <["log_filename" := VStr (time_prefix Demo.E +:+ "_matches.txt")]>
                        ({["highlowres" := VBool true]} : gmap string value) !! k)
            workers.
Proof.
  split; [right; right; reflexivity |].
  apply (workers_share_log_and_configuration Demo.E "tex/" 4
           {["highlowres" := VBool true]} Demo.w0).
  right. right. reflexivity.
Defined.

(** ** The log is the only file a run touches *)

Section LogOnly.

Variable log_filename : string.

Lemma appends_refl (files : gmap string (list string)) :
  appends_to_log_only log_filename files files.
Proof. split; auto. Qed.

Lemma appends_trans (f1 f2 f3 : gmap string (list string)) :
  appends_to_log_only log_filename f1 f2 ->
  appends_to_log_only log_filename f2 f3 ->
  appends_to_log_only log_filename f1 f3.
Proof.
  intros [Ho1 Hl1] [Ho2 Hl2]. split.
  - intros path Hp. now rewrite Ho2, Ho1.
  - destruct Hl1 as [E1 | (r1 & Hr1 & E1)], Hl2 as [E2 | (r2 & Hr2 & E2)].
    + left. congruence.
    + right. exists r2. split; [assumption |]. now rewrite E2, E1.
    + right. exists r1. split; [assumption |]. now rewrite E2, E1.
    + right. exists (r1 ++ r2). split.
      * destruct r1; [congruence | discriminate].
      * rewrite E2, E1. cbn. now rewrite app_assoc.
Qed.

Lemma appends_insert (files : gmap string (list string)) (line : string) :
  appends_to_log_only log_filename files
    (<[log_filename := default [] (files !! log_filename) ++ [line]]> files).
Proof.
  split.
  - intros path Hp. now rewrite lookup_insert_ne.
  - right. exists [line]. split; [discriminate |]. apply lookup_insert_eq.
Qed.

Lemma keeps_to_log_refl w : keeps_to_log log_filename w w.
Proof. split; [apply appends_refl | reflexivity]. Qed.

Lemma keeps_to_log_trans w1 w2 w3 :
  keeps_to_log log_filename w1 w2 -> keeps_to_log log_filename w2 w3 ->
  keeps_to_log log_filename w1 w3.
Proof.
  intros [H1 S1] [H2 S2]. split; [eapply appends_trans; eassumption | congruence].
Qed.

Lemma keeps_to_log_print s w :
  keeps_to_log log_filename w (final_world (print s) w).
Proof. split; [apply appends_refl | reflexivity]. Qed.

Lemma keeps_to_log_body (E : env) (key_img : image)
    (verbose compare highlowres : bool) (file_name : string) (w : world) :
  keeps_to_log log_filename w
    (final_world (compare_candidate E key_img log_filename verbose compare
                    highlowres file_name) w).
Proof.
  destruct (compare_candidate_effect E key_img log_filename verbose compare
              highlowres file_name w) as [Hsp H].
  set (w' := final_world _ w) in *.
  split; [| exact Hsp].
  assert (Hcases : fs w' = fs w
                   \/ exists line,
                        fs w' = <[log_filename := log_records w log_filename
                                    ++ [line]]> (fs w)).
  { destruct (load_image E file_name); try (left; now rewrite H).
    destruct compare; [| destruct highlowres].
    - destruct H as [-> _]. destruct (bf_match E _ _) as [n|]; [| now left].
      destruct (400 <? n); [right; eauto | now left].
    - destruct H as [-> _]. destruct (Py.float_lt _ _); [right; eauto | now left].
    - left. now rewrite H. }
  destruct Hcases as [-> | (line & ->)];
    [apply appends_refl | apply appends_insert].
Qed.

Lemma image_compare_keeps_to_log (E : env) (filename_list : option (list string))
    (compare_file : string) (verbose compare highlowres : bool) (w : world) :
  keeps_to_log log_filename w
    (final_world (image_compare E filename_list compare_file log_filename
                    verbose compare highlowres) w).
Proof.
  apply (image_compare_keeps E log_filename verbose compare highlowres
           (keeps_to_log log_filename)).
  - apply keeps_to_log_refl.
  - apply keeps_to_log_trans.
  - intros key f w0. apply keeps_to_log_body.
  - apply keeps_to_log_print.
Qed.

Lemma worker_keeps_to_log (E : env) (d : gmap string value) (w : world) :
  d !! "log_filename" = Some (VStr log_filename) ->
  keeps_to_log log_filename w (final_world (image_compare_kwargs E d) w).
Proof.
  intros Hd. unfold image_compare_kwargs.
  replace (get_str d "log_filename" "") with log_filename
    by (unfold get_str; now rewrite Hd).
  apply image_compare_keeps_to_log.
Qed.

Lemma workers_keep_to_log (E : env) (workers : list (gmap string value)) :
  Forall (fun d => d !! "log_filename" = Some (VStr log_filename)) workers ->
  forall w,
    keeps_to_log log_filename w
      (foldl (fun w d => final_world (image_compare_kwargs E d) w) w workers).
Proof.
  induction 1 as [|d rest Hd _ IH]; intros w; cbn [foldl].
  - apply keeps_to_log_refl.
  - eapply keeps_to_log_trans; [apply (worker_keeps_to_log E d w Hd) | apply IH].
Qed.

End LogOnly.

(** ** The invariant of a run *)

Lemma ends_with_final {A} (m : M A) (w : world) (P : world -> Prop) :
  ends_with m w (fun _ => P) P <-> P (final_world m w).
Proof. unfold ends_with, final_world. destruct (m w); reflexivity. Qed.

Lemma ends_with_bind {A B} (m : M A) (k : A -> M B) (w : world)
    (Q : B -> world -> Prop) (Qx : world -> Prop) :
  ends_with m w (fun a w' => ends_with (k a) w' Q Qx) Qx ->
  ends_with (m ≫= k) w Q Qx.
Proof.
  unfold ends_with, mbind, M_bind, bind. destruct (m w); auto.
Qed.

Lemma ends_with_seq {A B} (m : M A) (k : A -> M B) (w : world)
    (Q1 : A -> world -> Prop) (Q : B -> world -> Prop) (Qx : world -> Prop) :
  ends_with m w Q1 Qx ->
  (forall a w', Q1 a w' -> ends_with (k a) w' Q Qx) ->
  ends_with (m ≫= k) w Q Qx.
Proof.
  intros Hm Hk. apply ends_with_bind. unfold ends_with in Hm |- *.
  destruct (m w); auto. now apply Hk.
Qed.

Lemma ends_with_weaken {A} (m : M A) (w : world)
    (Q Q' : A -> world -> Prop) (Qx : world -> Prop) :
  ends_with m w Q Qx -> (forall a w', Q a w' -> Q' a w') -> ends_with m w Q' Qx.
Proof. unfold ends_with. destruct (m w); auto. Qed.

Section RunInvariant.

Variable E : env.
Variable w0 : world.

Let log_filename := time_prefix E +:+ "_matches.txt".
Let I := run_invariant log_filename w0.

Lemma inv_start : I w0.
Proof.
  split; [apply appends_refl |].
  exists []. split; [now rewrite app_nil_r | constructor].
Qed.

Lemma inv_print s w : I w -> I (final_world (print s) w).
Proof. intros H. exact H. Qed.

Lemma inv_keeps w w' : I w -> keeps_to_log log_filename w w' -> I w'.
Proof.
  intros [Ha (started & Hs & Hall)] [Hk Hsp]. split.
  - eapply appends_trans; eassumption.
  - exists started. split; [congruence | assumption].
Qed.

Lemma inv_print_exit {A} s code w (Q : A -> world -> Prop) :
  I w -> ends_with (print s ;; exit code) w Q I.
Proof. intros H. exact H. Qed.

Lemma parse_parameter_inv parameter st w :
  I w -> ends_with (parse_parameter E parameter st) w (fun _ => I) I.
Proof.
  intros H. unfold parse_parameter. destruct st as [use_threading argument_dict].
  apply (ends_with_seq _ _ _ (fun _ => I)).
  - destruct (Py.contains "threading=" parameter); [| exact H].
    destruct (int_of_string E _) as [n|]; [| exact H].
    destruct (negb _); exact H.
  - intros n w' H'. exact H'.
Qed.

Lemma parse_parameters_inv parameters st w :
  I w -> ends_with (parse_parameters E parameters st) w (fun _ => I) I.
Proof.
  revert st w. induction parameters as [|parameter rest IH]; intros st w H.
  - exact H.
  - cbn [parse_parameters].
    eapply ends_with_seq; [apply (parse_parameter_inv parameter st w H) |].
    intros st' w' H'. now apply IH.
Qed.

Lemma assign_and_start_inv chunks i argument_dict w :
  I w /\ argument_dict !! "log_filename" = Some (VStr log_filename) ->
  ends_with (assign_and_start chunks i argument_dict) w
    (fun d w' => I w' /\ d !! "log_filename" = Some (VStr log_filename)) I.
Proof.
  intros [[Ha (started & Hs & Hall)] Hd]. unfold assign_and_start.
  destruct (chunks !! i) as [chunk|]; [| split; eauto].
  assert (Hd' : <["filename_list" := VList chunk]> argument_dict !! "log_filename"
                = Some (VStr log_filename))
    by (rewrite lookup_insert_ne by discriminate; exact Hd).
  split; [| exact Hd']. split; [exact Ha |].
  exists (started ++ [<["filename_list" := VList chunk]> argument_dict]).
  cbn. split.
  - now rewrite Hs, app_assoc.
  - apply Forall_app. split; [assumption | repeat constructor; exact Hd'].
Qed.

Lemma multithreading_compare_inv filename_list argument_dict W w :
  I w ->
  argument_dict !! "log_filename" = Some (VStr log_filename) ->
  I (final_world (multithreading_compare filename_list argument_dict W) w).
Proof.
  intros H Hd. apply ends_with_final. unfold multithreading_compare.
  destruct (W =? 0); [exact H |].
  set (chunks := filename_list_chunks filename_list W).
  set (Q := fun (d : gmap string value) (w' : world) =>
              I w' /\ d !! "log_filename" = Some (VStr log_filename)).
  apply (ends_with_seq _ _ _ Q).
  { destruct (2 <=? W); [| split; assumption].
    apply (ends_with_seq _ _ _ Q).
    - apply assign_and_start_inv. now split.
    - intros d1 w1 H1. now apply assign_and_start_inv. }
  intros d2 w2 H2.
  apply (ends_with_seq _ _ _ Q).
  { destruct (3 <=? W); [now apply assign_and_start_inv | exact H2]. }
  intros d3 w3 H3.
  apply (ends_with_weaken _ _ Q); [| intros ? ? [? _]; assumption].
  destruct (4 <=? W); [now apply assign_and_start_inv | exact H3].
Qed.

Lemma dispatch_inv texture_path use_threading argument_dict w :
  I w -> I (final_world (dispatch E texture_path use_threading argument_dict) w).
Proof.
  intros H. apply ends_with_final. unfold dispatch.
  fold log_filename.
  set (config := <["log_filename" := VStr log_filename]> argument_dict).
  assert (Hc : config !! "log_filename" = Some (VStr log_filename))
    by apply lookup_insert_eq.
  set (files := glob E (texture_path +:+ "*")).
  apply (ends_with_seq _ _ _ (fun _ => I)).
  { destruct (length files =? 0); exact H. }
  intros [] w1 H1.
  destruct (negb (use_threading =? 0)%Z).
  - apply (ends_with_seq _ _ _ (fun _ => I)).
    + apply ends_with_final. now apply multithreading_compare_inv.
    + intros d w2 H2. exact H2.
  - apply ends_with_final.
    apply (inv_keeps w1); [exact H1 |].
    apply worker_keeps_to_log.
    rewrite lookup_insert_ne by discriminate. exact Hc.
Qed.

Lemma main_inv argv w : I w -> I (final_world (main E argv) w).
Proof.
  intros H. apply ends_with_final. unfold main.
  destruct (argv !! 1) as [argv_1|]; [| exact H].
  destruct (negb (isfile E _)); [exact H |].
  destruct (argv !! 2) as [argv_2|]; [| exact H].
  destruct (negb (isdir E _)); [exact H |].
  apply (ends_with_seq _ _ _ (fun _ => I)).
  { now apply parse_parameters_inv. }
  intros [use_threading d] w1 H1.
  destruct (negb _); [exact H1 |].
  destruct (_ && _); [exact H1 |].
  apply ends_with_final. now apply dispatch_inv.
Qed.

End RunInvariant.

(** C6, as the code has it. A run changes no file but the log, whose name is
    the start time of the run followed by [_matches.txt]. The log is opened
    only to append a Match Record: after the run it is either as it was
    before (missing, when it did not exist) or holds its earlier content
    followed by at least one record. *)
Theorem run_touches_only_the_log (E : env) (argv : list string)
    (files : gmap string (list string)) :
  let log_filename := time_prefix E +:+ "_matches.txt" in
  let after := fs (run E argv files) in
  (forall path, path <> log_filename -> after !! path = files !! path)
  /\ (after !! log_filename = files !! log_filename
      \/ exists records, records <> []
           /\ after !! log_filename
              = Some (default [] (files !! log_filename) ++ records)).
Proof.
  cbv zeta. unfold run.
  set (log_filename := time_prefix E +:+ "_matches.txt").
  set (w0 := {| fs := files; stdout := []; spawned := []; metric_trace := [] |}).
  destruct (main_inv E w0 argv w0 (inv_start E w0)) as [Hmain (started & Hs & Hall)].
  fold log_filename in Hmain, Hall.
  cbn [spawned app] in Hs. rewrite Hs.
  destruct (workers_keep_to_log log_filename E started Hall
              (final_world (main E argv) w0)) as [Hworkers _].
  exact (appends_trans log_filename _ _ _ Hmain Hworkers).
Qed.

(** C6, as the specification words it, fails: a run over an empty candidate
    directory prints its warning, completes, and leaves the file system
    empty; no log file exists afterwards. *)
Lemma run_without_match_creates_no_log :
  main Demo.E ["image_compare.py"; "key.png"; "empty"; "highlowres"] Demo.w0
  = Returned tt
      {| fs := ∅;
         stdout := ["Error: no files in path_to_textures, are you sure you provided the right directory?"];
         spawned := []; metric_trace := [] |}
  /\ fs (run Demo.E ["image_compare.py"; "key.png"; "empty"; "highlowres"] ∅)
       !! (time_prefix Demo.E +:+ "_matches.txt")
     = None.
Proof. vm_compute. split; reflexivity. Qed.

Example run_with_matches_creates_the_log :
  fs (run Demo.E ["image_compare.py"; "key.png"; "tex"; "highlowres"] ∅)
  = {[ Demo.log := ["tex/copy.png 0.0 " +:+ Py.nl; "tex/near.png 100.0 " +:+ Py.nl] ]}.
Proof. vm_compute. reflexivity. Qed.

Example run_with_four_workers :
  fs (run Demo.E ["image_compare.py"; "key.png"; "tex"; "highlowres"; "threading=4"] ∅)
  = {[ Demo.log := ["tex/copy.png 0.0 " +:+ Py.nl; "tex/near.png 100.0 " +:+ Py.nl] ]}.
Proof. vm_compute. reflexivity. Qed.

Example run_without_mode_exits :
  main Demo.E ["image_compare.py"; "key.png"; "tex"] Demo.w0
  = Exited 1
      {| fs := ∅;
         stdout := ["Error: must provide either 'compare' or 'highlowres' for required argument search_mode."];
         spawned := []; metric_trace := [] |}.
Proof. vm_compute. reflexivity. Qed.

(** * Further properties *)

(** ** Bounds of the mean squared error *)

Section MseBounds.

Implicit Types (a b : image) (xs ys : list Z).

Lemma squared_diffs_bounds xs ys :
  Forall (fun v => (0 <= v <= 255)%Z) xs ->
  Forall (fun v => (0 <= v <= 255)%Z) ys ->
  (0 <= foldr Z.add 0 (zip_with (fun x y => (x - y) ^ 2) xs ys)
   <= 65025 * Z.of_nat (length xs))%Z.
Proof.
  intros Hxs. revert ys. induction Hxs as [|x xs Hx _ IH]; intros ys Hys.
  - cbn. lia.
  - destruct Hys as [|y ys Hy Hys]; cbn [zip_with foldr length].
    + lia.
    + specialize (IH ys Hys). rewrite Nat2Z.inj_succ.
      assert (0 <= (x - y) ^ 2 <= 65025)%Z by nia.
      lia.
Qed.

Lemma squared_diffs_zero xs ys :
  length xs = length ys ->
  foldr Z.add 0%Z (zip_with (fun x y => ((x - y) ^ 2)%Z) xs ys) = 0%Z ->
  xs = ys.
Proof.
  revert ys. induction xs as [|x xs IH]; intros [|y ys] Hlen Hsum;
    try discriminate Hlen; [reflexivity |].
  cbn [zip_with foldr] in Hsum. injection Hlen as Hlen.
  assert (Hnn : forall l1 l2 : list Z,
            (0 <= foldr Z.add 0 (zip_with (fun x y => (x - y) ^ 2) l1 l2))%Z).
  { induction l1 as [|u l1 IH1]; intros [|v l2]; cbn; try lia.
    specialize (IH1 l2). nia. }
  specialize (Hnn xs ys).
  assert (x = y) by nia. subst y.
  f_equal. apply IH; [assumption | nia].
Qed.

Lemma same_shape_lengths a b :
  same_shape a b = true ->
  length (pixels a) = shape0 a * shape1 a
  /\ length (pixels b) = shape0 a * shape1 a.
Proof.
  unfold same_shape. rewrite !andb_true_iff, !Nat.eqb_eq.
  intros [[[-> ->] ->] ->]. auto.
Qed.

Lemma pos_of_nat_Z (n : nat) : 0 < n -> Z.pos (Pos.of_nat n) = Z.of_nat n.
Proof.
  intros Hn. rewrite <- (positive_nat_Z (Pos.of_nat n)).
  rewrite Nat2Pos.id by lia. reflexivity.
Qed.

End MseBounds.

(** X1. For two 8-bit arrays of one non-empty shape the sum of squared
    differences lies between 0 and 65025 per element, so it stays far below
    2^53 for 1024 x 1024 arrays, and [mse] is a finite number between 0 and
    65025. *)
Theorem mse_between_0_and_65025 (a b : image)
    (Hshape : same_shape a b = true) (Hsize : 0 < shape0 a * shape1 a)
    (Ha : eight_bit a) (Hb : eight_bit b) :
  (0 <= squared_error a b <= 65025 * Z.of_nat (shape0 a * shape1 a))%Z
  /\ exists q, mse a b = Py.Fin q /\ (0 <= q)%Q /\ (q <= 65025)%Q.
Proof.
  destruct (same_shape_lengths a b Hshape) as [Hla _].
  pose proof (squared_diffs_bounds (pixels a) (pixels b) Ha Hb) as Hsum.
  rewrite Hla in Hsum. fold (squared_error a b) in Hsum.
  split; [exact Hsum |].
  unfold mse. destruct (shape0 a * shape1 a) as [|n] eqn:Hn; [lia |].
  eexists. split; [reflexivity |].
  unfold Qle. cbn [Qnum Qden].
  rewrite pos_of_nat_Z by lia. split; lia.
Qed.

Lemma mse_between_0_and_65025_witness :
  let a := Image 2 2 [0; 255; 3; 4]%Z in
  let b := Image 2 2 [255; 0; 20; 10]%Z in
  same_shape a b = true
  /\ 0 < shape0 a * shape1 a
  /\ eight_bit a /\ eight_bit b
  /\ (0 <= squared_error a b <= 65025 * Z.of_nat (shape0 a * shape1 a))%Z
  /\ exists q, mse a b = Py.Fin q /\ (0 <= q)%Q /\ (q <= 65025)%Q.
Proof.
  cbv zeta.
  assert (Ha : eight_bit (Image 2 2 [0; 255; 3; 4]%Z))
    by (unfold eight_bit; cbn; repeat constructor; lia).
  assert (Hb : eight_bit (Image 2 2 [255; 0; 20; 10]%Z))
    by (unfold eight_bit; cbn; repeat constructor; lia).
  split; [reflexivity |]. split; [cbn; lia |].
  split; [exact Ha |]. split; [exact Hb |].
  apply (mse_between_0_and_65025
           (Image 2 2 [0; 255; 3; 4]%Z) (Image 2 2 [255; 0; 20; 10]%Z));
    [reflexivity | cbn; lia | exact Ha | exact Hb].
Defined.

(** X2. For two 8-bit arrays of one non-empty shape, the arrays [mse] is
    computed on exactly, [mse] equals 0 exactly when the arrays hold the same
    elements. *)
Theorem mse_zero_iff_equal (a b : image)
    (Hshape : same_shape a b = true) (Hsize : 0 < shape0 a * shape1 a)
    (Ha : eight_bit a) (Hb : eight_bit b) :
  Py.float_eq (mse a b) (Py.Fin 0) = true <-> pixels a = pixels b.
Proof.
  destruct (same_shape_lengths a b Hshape) as [Hla Hlb].
  unfold mse. destruct (shape0 a * shape1 a) as [|n] eqn:Hn; [lia |].
  cbn [Py.float_eq]. rewrite Qeq_bool_iff. unfold Qeq. cbn [Qnum Qden].
  split.
  - intros H. apply squared_diffs_zero; [congruence |].
    unfold squared_error in H. lia.
  - intros H. unfold squared_error. rewrite H, squared_diffs_self. reflexivity.
Qed.

Lemma mse_zero_iff_equal_witness :
  let a := Image 2 2 [1; 2; 3; 4]%Z in
  let b := Image 2 2 [1; 2; 3; 5]%Z in
  same_shape a b = true
  /\ 0 < shape0 a * shape1 a
  /\ eight_bit a /\ eight_bit b
  /\ (Py.float_eq (mse a b) (Py.Fin 0) = true <-> pixels a = pixels b).
Proof.
  cbv zeta.
  assert (Ha : eight_bit (Image 2 2 [1; 2; 3; 4]%Z))
    by (unfold eight_bit; cbn; repeat constructor; lia).
  assert (Hb : eight_bit (Image 2 2 [1; 2; 3; 5]%Z))
    by (unfold eight_bit; cbn; repeat constructor; lia).
  split; [reflexivity |]. split; [cbn; lia |].
  split; [exact Ha |]. split; [exact Hb |].
  apply (mse_zero_iff_equal (Image 2 2 [1; 2; 3; 4]%Z) (Image 2 2 [1; 2; 3; 5]%Z));
    [reflexivity | cbn; lia | exact Ha | exact Hb].
Defined.

(** ** The partition for any worker count *)

Section PartitionAny.

Context {A : Type}.
Implicit Types (l : list A) (W i : nat).

Lemma chunk_early_content l W i :
  i < W - 1 ->
  chunk_of l W (S i) = take (length l / W) (drop (i * (length l / W)) l).
Proof.
  intros Hi. unfold chunk_of.
  destruct (Nat.ltb_spec (S i) W); [| lia].
  rewrite share_of_files_div by lia. unfold Py.slice.
  replace (S i - 1) with i by lia.
  rewrite take_drop_commute. do 2 f_equal. lia.
Qed.

Lemma chunk_last_content l W :
  0 < W -> chunk_of l W W = drop ((W - 1) * (length l / W)) l.
Proof.
  intros HW. unfold chunk_of. rewrite Nat.ltb_irrefl.
  rewrite share_of_files_div by lia. reflexivity.
Qed.

End PartitionAny.

(** X3. For every worker count of at least 1, the chunk at position [i]
    before the last is the [C / W] candidates starting at index
    [i * (C / W)], and the last chunk is everything from index
    [(W - 1) * (C / W)] on; it has [C / W + C mod W] candidates, fewer than
    [W] more than each of the others. *)
Theorem chunks_are_consecutive_blocks (filename_list : list string) (W : nat)
    (HW : 1 <= W) :
  let chunks := filename_list_chunks filename_list W in
  let C := length filename_list in
  (forall i, i < W - 1 ->
     chunks !! i = Some (take (C / W) (drop (i * (C / W)) filename_list)))
  /\ chunks !! (W - 1) = Some (drop ((W - 1) * (C / W)) filename_list)
  /\ length (drop ((W - 1) * (C / W)) filename_list) = C / W + C mod W
  /\ C mod W < W.
Proof.
  cbv zeta. split; [| split; [| split]].
  - intros i Hi. rewrite chunks_lookup by lia. f_equal.
    now apply chunk_early_content.
  - rewrite chunks_lookup by lia. f_equal.
    replace (S (W - 1)) with W by lia. apply chunk_last_content. lia.
  - rewrite length_drop.
    pose proof (Nat.div_mod_eq (length filename_list) W). nia.
  - apply Nat.mod_upper_bound. lia.
Qed.

Lemma chunks_are_consecutive_blocks_witness :
  1 <= 3
  /\ let chunks := filename_list_chunks ["a"; "b"; "c"; "d"; "e"; "f"; "g"; "h"] 3 in
     (forall i, i < 3 - 1 ->
        chunks !! i
        = Some (take (8 / 3) (drop (i * (8 / 3)) ["a"; "b"; "c"; "d"; "e"; "f"; "g"; "h"])))
     /\ chunks !! (3 - 1)
        = Some (drop ((3 - 1) * (8 / 3)) ["a"; "b"; "c"; "d"; "e"; "f"; "g"; "h"])
     /\ length (drop ((3 - 1) * (8 / 3)) ["a"; "b"; "c"; "d"; "e"; "f"; "g"; "h"])
        = 8 / 3 + 8 mod 3
     /\ 8 mod 3 < 3.
Proof.
  split; [lia |].
  apply (chunks_are_consecutive_blocks ["a"; "b"; "c"; "d"; "e"; "f"; "g"; "h"] 3).
  lia.
Defined.

(** X4. With fewer candidates than workers every chunk but the last is
    empty and the last chunk is the whole list: one worker gets all the
    work. *)
Theorem few_candidates_go_to_last_chunk (filename_list : list string) (W : nat)
    (Hfew : length filename_list < W) :
  filename_list_chunks filename_list W = replicate (W - 1) [] ++ [filename_list].
Proof.
  rewrite chunks_unfold by lia.
  rewrite share_of_files_div by lia.
  rewrite Nat.div_small by assumption.
  rewrite Nat.mul_0_r. unfold Py.slice_from. cbn [drop]. f_equal.
  assert (H : forall n start,
            map (fun i => Py.slice filename_list ((i - 1) * 0) (i * 0)) (seq start n)
            = replicate n []).
  { induction n as [|n IH]; intros start; cbn [seq map replicate].
    - reflexivity.
    - f_equal; [| apply IH].
      unfold Py.slice. rewrite !Nat.mul_0_r. reflexivity. }
  apply H.
Qed.

Lemma few_candidates_go_to_last_chunk_witness :
  length ["a"; "b"] < 4
  /\ filename_list_chunks ["a"; "b"] 4 = replicate (4 - 1) [] ++ [["a"; "b"]].
Proof.
  split; [cbn; lia |].
  apply (few_candidates_go_to_last_chunk ["a"; "b"] 4). cbn. lia.
Defined.

(** ** Starting processes for any worker count *)

(** X5. Called with a worker count of 0, [multithreading_compare] raises
    [ZeroDivisionError]; with 1 it returns without starting a process, so no
    candidate is scanned; with 2 or more it starts one process for each of
    the first four chunks at most, so with 5 or more workers the candidates
    of the later chunks are never scanned. *)
Theorem starts_at_most_four_processes (filename_list : list string)
    (argument_dict : gmap string value) (W : nat) (w : world) :
  (W = 0 ->
   multithreading_compare filename_list argument_dict W w
   = Raised ZeroDivisionError w)
  /\ (W = 1 ->
      multithreading_compare filename_list argument_dict W w
      = Returned argument_dict w)
  /\ (2 <= W ->
      exists d',
        multithreading_compare filename_list argument_dict W w
        = Returned d'
            {| fs := fs w; stdout := stdout w;
               spawned := spawned w
                 ++ map (fun chunk => <["filename_list" := VList chunk]> argument_dict)
                      (take 4 (filename_list_chunks filename_list W));
               metric_trace := metric_trace w |}).
Proof.
  split; [| split].
  - intros ->. reflexivity.
  - intros ->. reflexivity.
  - intros HW. unfold multithreading_compare.
    assert (Hall : filename_list_chunks filename_list W
                   = map (chunk_of filename_list W) (seq 1 W)).
    { unfold filename_list_chunks, Py.range. do 2 f_equal. lia. }
    rewrite Hall.
    destruct W as [|[|[|[|k]]]]; try lia;
      cbn [Nat.eqb Nat.leb seq map take];
      unfold assign_and_start, start_process, mbind, M_bind, bind, mret, M_ret, ret;
      cbn [lookup list_lookup fs stdout spawned metric_trace];
      rewrite ?insert_insert_eq, <- ?app_assoc;
      eexists; reflexivity.
Qed.

Example five_workers_leave_a_chunk_unscanned :
  exists d' w',
    multithreading_compare ["a"; "b"; "c"; "d"; "e"] ∅ 5 Demo.w0 = Returned d' w'
    /\ spawned w'
       = [ {["filename_list" := VList ["a"]]}; {["filename_list" := VList ["b"]]};
           {["filename_list" := VList ["c"]]}; {["filename_list" := VList ["d"]]} ].
Proof. do 2 eexists. split; [vm_compute; reflexivity | vm_compute; reflexivity]. Qed.

(** ** The records of a whole scan *)

Section ScanRecords.

Variable E : env.
Variables (key_img : image) (log_filename : string).
Variables (verbose compare highlowres : bool).

Let body := compare_candidate E key_img log_filename verbose compare highlowres.
Let loop := scan E key_img log_filename verbose compare highlowres.
Let records := records_of E key_img compare highlowres.

Lemma scan_app (l1 l2 : list string) (processed : nat) (w : world) :
  loop (l1 ++ l2) processed w
  = match loop l1 processed w with
    | Returned processed1 w1 => loop l2 processed1 w1
    | Exited c w1 => Exited c w1
    | Raised e w1 => Raised e w1
    end.
Proof.
  revert processed w. induction l1 as [|f l1 IH]; intros processed w.
  - reflexivity.
  - cbn [app]. unfold loop in *. rewrite !scan_cons.
    destruct (compare_candidate _ _ _ _ _ _ f w); auto.
Qed.

Lemma body_records (file_name : string) (w : world) :
  let w' := final_world (body file_name) w in
  log_records w' log_filename = log_records w log_filename ++ records file_name
  /\ forall path, path <> log_filename -> fs w' !! path = fs w !! path.
Proof.
  destruct (compare_candidate_effect E key_img log_filename verbose compare
              highlowres file_name w) as [_ H].
  unfold body, records, records_of. set (w' := final_world _ w) in *. cbv zeta.
  assert (Hins : forall line,
            fs w' = <[log_filename := log_records w log_filename ++ [line]]> (fs w) ->
            log_records w' log_filename = log_records w log_filename ++ [line]
            /\ forall path, path <> log_filename -> fs w' !! path = fs w !! path).
  { intros line Hfs. split.
    - unfold log_records at 1. now rewrite Hfs, lookup_insert_eq.
    - intros path Hp. now rewrite Hfs, lookup_insert_ne. }
  assert (Hsame : fs w' = fs w ->
            log_records w' log_filename = log_records w log_filename ++ []
            /\ forall path, path <> log_filename -> fs w' !! path = fs w !! path).
  { intros Hfs. unfold log_records. rewrite Hfs, app_nil_r. auto. }
  destruct (load_image E file_name); try (apply Hsame; now rewrite H).
  destruct compare; [| destruct highlowres].
  - destruct H as [Hfs _]. destruct (bf_match E _ _) as [n|]; [| now apply Hsame].
    destruct (400 <? n); [now apply Hins | now apply Hsame].
  - destruct H as [Hfs _].
    destruct (Py.float_lt _ _); [now apply Hins | now apply Hsame].
  - apply Hsame. now rewrite H.
Qed.

Lemma scan_records (filename_list : list string) :
  Forall (fun file_name => load_image E file_name <> LoadOtherError) filename_list ->
  forall processed w,
  exists w',
    loop filename_list processed w
    = Returned (processed + length filename_list) w'
    /\ log_records w' log_filename
       = log_records w log_filename ++ flat_map records filename_list
    /\ forall path, path <> log_filename -> fs w' !! path = fs w !! path.
Proof.
  induction 1 as [|file_name rest Hok _ IH]; intros processed w.
  - exists w. cbn. rewrite app_nil_r. unfold mret, M_ret, ret.
    repeat split. f_equal. lia.
  - unfold loop in *. rewrite scan_cons.
    destruct (body_records file_name w) as [Hrec Hoth].
    destruct (body_returns E key_img log_filename verbose compare highlowres
                file_name w Hok) as (w1 & Hb).
    unfold body, final_world in Hrec, Hoth. rewrite Hb in Hrec, Hoth. rewrite Hb.
    destruct (IH (processed + 1) w1) as (w2 & -> & Hrec2 & Hoth2).
    exists w2. split; [f_equal; cbn; lia |]. split.
    + rewrite Hrec2, Hrec. cbn [flat_map]. now rewrite app_assoc.
    + intros path Hp. now rewrite Hoth2, Hoth.
Qed.

End ScanRecords.

Lemma image_compare_returns_with (E : env) (filename_list : list string)
    (compare_file log_filename : string) (key_img : image)
    (verbose compare highlowres : bool) (w : world) :
  load_image E compare_file = Loaded key_img ->
  Forall (fun file_name => load_image E file_name <> LoadOtherError) filename_list ->
  log_records
    (final_world
       (image_compare E (Some filename_list) compare_file log_filename
          verbose compare highlowres) w) log_filename
  = log_records w log_filename
    ++ flat_map (records_of E key_img compare highlowres) filename_list.
Proof.
  intros Hkey Hok. unfold final_world, image_compare. rewrite Hkey.
  destruct (scan_records E key_img log_filename verbose compare highlowres
              filename_list Hok 0 w) as (w1 & Hscan & Hrec & _).
  unfold mbind, M_bind, bind at 1. rewrite Hscan.
  destruct verbose; cbn [when]; unfold_M; cbn; assumption.
Qed.

(** X6. When the key loads and no candidate fails with an exception the
    loop does not catch, a call of [image_compare] returns, changes no file
    but the log, and adds to the log the records of the matching candidates,
    one for each, in the order of the candidate list. *)
Theorem scan_logs_matches_in_list_order (E : env) (filename_list : list string)
    (compare_file log_filename : string) (key_img : image)
    (verbose compare highlowres : bool) (w : world)
    (Hkey : load_image E compare_file = Loaded key_img)
    (Hok : Forall (fun file_name => load_image E file_name <> LoadOtherError)
             filename_list) :
  exists w',
    image_compare E (Some filename_list) compare_file log_filename
      verbose compare highlowres w = Returned tt w'
    /\ log_records w' log_filename
       = log_records w log_filename
         ++ flat_map (records_of E key_img compare highlowres) filename_list
    /\ forall path, path <> log_filename -> fs w' !! path = fs w !! path.
Proof.
  unfold image_compare. rewrite Hkey.
  destruct (scan_records E key_img log_filename verbose compare highlowres
              filename_list Hok 0 w) as (w1 & Hscan & Hrec & Hoth).
  unfold mbind, M_bind, bind at 1. rewrite Hscan.
  destruct verbose; cbn [when]; unfold_M; cbn;
    eexists; (split; [reflexivity |]); split; assumption.
Qed.

Lemma demo_directory_loads :
  Forall (fun file_name => load_image Demo.E file_name <> LoadOtherError)
    (glob Demo.E "tex/*").
Proof. repeat constructor; discriminate. Qed.

Lemma scan_logs_matches_in_list_order_witness :
  load_image Demo.E "/home/u/key.png" = Loaded (Demo.grey 10)
  /\ Forall (fun file_name => load_image Demo.E file_name <> LoadOtherError)
       (glob Demo.E "tex/*")
  /\ exists w',
       image_compare Demo.E (Some (glob Demo.E "tex/*")) "/home/u/key.png"
         Demo.log false false true Demo.w0 = Returned tt w'
       /\ log_records w' Demo.log
          = log_records Demo.w0 Demo.log
            ++ flat_map (records_of Demo.E (Demo.grey 10) false true)
                 (glob Demo.E "tex/*")
       /\ forall path, path <> Demo.log -> fs w' !! path = fs Demo.w0 !! path.
Proof.
  split; [reflexivity |]. split; [exact demo_directory_loads |].
  apply (scan_logs_matches_in_list_order Demo.E (glob Demo.E "tex/*")
           "/home/u/key.png" Demo.log (Demo.grey 10) false false true Demo.w0).
  - reflexivity.
  - exact demo_directory_loads.
Defined.

Example demo_directory_records :
  flat_map (records_of Demo.E (Demo.grey 10) false true) (glob Demo.E "tex/*")
  = ["tex/copy.png 0.0 " +:+ Py.nl; "tex/near.png 100.0 " +:+ Py.nl].
Proof. vm_compute. reflexivity. Qed.

(** ** Workers against a single process *)

Lemma chunks_records (E : env) (compare_file log_filename : string)
    (key_img : image) (verbose compare highlowres : bool)
    (chunks : list (list string)) :
  load_image E compare_file = Loaded key_img ->
  Forall (Forall (fun file_name => load_image E file_name <> LoadOtherError)) chunks ->
  forall w,
    log_records
      (foldl (fun w chunk =>
                final_world
                  (image_compare E (Some chunk) compare_file log_filename
                     verbose compare highlowres) w) w chunks) log_filename
    = log_records w log_filename
      ++ flat_map (records_of E key_img compare highlowres) (concat chunks).
Proof.
  intros Hkey. induction 1 as [|chunk rest Hok _ IH]; intros w; cbn [foldl concat].
  - cbn. now rewrite app_nil_r.
  - rewrite IH.
    rewrite (image_compare_returns_with E chunk compare_file log_filename
               key_img verbose compare highlowres w Hkey Hok).
    rewrite flat_map_app. now rewrite app_assoc.
Qed.

Lemma records_of_chunks_perm (E : env) (key_img : image)
    (compare highlowres : bool) (order chunks : list (list string)) :
  order ≡ₚ chunks ->
  flat_map (records_of E key_img compare highlowres) (concat order)
  ≡ₚ flat_map (records_of E key_img compare highlowres) (concat chunks).
Proof.
  induction 1 as [|chunk l1 l2 _ IH|c1 c2 l|l1 l2 l3 _ IH1 _ IH2];
    cbn [concat]; rewrite ?flat_map_app.
  - reflexivity.
  - now rewrite IH.
  - rewrite !app_assoc. f_equiv. apply Permutation_app_comm.
  - now rewrite IH1.
Qed.

(** X7. With 2, 3 or 4 workers, when the key loads and no candidate fails
    with an exception the loop does not catch: in whatever order the workers
    run their calls of [image_compare] to the end, each over its chunk, the
    log holds afterwards the same records, each as often, as after one call
    over the whole candidate list. The order of the records in the log is
    left open. *)
Theorem workers_log_what_one_process_logs (E : env) (filename_list : list string)
    (W : nat) (order : list (list string))
    (compare_file log_filename : string) (key_img : image)
    (verbose compare highlowres : bool) (w : world)
    (HW : W = 2 \/ W = 3 \/ W = 4)
    (Horder : order ≡ₚ filename_list_chunks filename_list W)
    (Hkey : load_image E compare_file = Loaded key_img)
    (Hok : Forall (fun file_name => load_image E file_name <> LoadOtherError)
             filename_list) :
  log_records
    (foldl (fun w chunk =>
              final_world
                (image_compare E (Some chunk) compare_file log_filename
                   verbose compare highlowres) w)
       w order) log_filename
  ≡ₚ log_records
       (final_world
          (image_compare E (Some filename_list) compare_file log_filename
             verbose compare highlowres) w) log_filename.
Proof.
  assert (Hpos : 0 < W) by lia.
  rewrite (image_compare_returns_with E filename_list compare_file log_filename
             key_img verbose compare highlowres w Hkey Hok).
  assert (Hchunks : Forall (Forall (fun file_name =>
                                      load_image E file_name <> LoadOtherError))
                      (filename_list_chunks filename_list W)).
  { apply Forall_concat. now rewrite chunks_concat. }
  rewrite (chunks_records E compare_file log_filename key_img verbose compare
             highlowres order Hkey).
  - apply Permutation_app_head.
    rewrite (records_of_chunks_perm E key_img compare highlowres order
               (filename_list_chunks filename_list W) Horder).
    now rewrite chunks_concat.
  - now rewrite Horder.
Qed.

Lemma demo_worker_order :
  [["tex/other.png"; "tex/notes.txt"; "tex/locked.png"];
   ["tex/copy.png"]; ["tex/near.png"]]
  ≡ₚ filename_list_chunks (glob Demo.E "tex/*") 3.
Proof.
  change (filename_list_chunks (glob Demo.E "tex/*") 3)
    with ([["tex/copy.png"]; ["tex/near.png"]]
          ++ [["tex/other.png"; "tex/notes.txt"; "tex/locked.png"]]).
  apply Permutation_cons_append.
Qed.

Lemma workers_log_what_one_process_logs_witness :
  (3 = 2 \/ 3 = 3 \/ 3 = 4)
  /\ [["tex/other.png"; "tex/notes.txt"; "tex/locked.png"];
      ["tex/copy.png"]; ["tex/near.png"]]
     ≡ₚ filename_list_chunks (glob Demo.E "tex/*") 3
  /\ load_image Demo.E "/home/u/key.png" = Loaded (Demo.grey 10)
  /\ Forall (fun file_name => load_image Demo.E file_name <> LoadOtherError)
       (glob Demo.E "tex/*")
  /\ log_records
       (foldl (fun w chunk =>
                 final_world
                   (image_compare Demo.E (Some chunk) "/home/u/key.png" Demo.log
                      false false true) w)
          Demo.w0
          [["tex/other.png"; "tex/notes.txt"; "tex/locked.png"];
           ["tex/copy.png"]; ["tex/near.png"]]) Demo.log
     ≡ₚ log_records
          (final_world
             (image_compare Demo.E (Some (glob Demo.E "tex/*")) "/home/u/key.png"
                Demo.log false false true) Demo.w0) Demo.log.
Proof.
  split; [right; left; reflexivity |]. split; [exact demo_worker_order |].
  split; [reflexivity |]. split; [exact demo_directory_loads |].
  apply (workers_log_what_one_process_logs Demo.E (glob Demo.E "tex/*") 3
           [["tex/other.png"; "tex/notes.txt"; "tex/locked.png"];
            ["tex/copy.png"]; ["tex/near.png"]]
           "/home/u/key.png" Demo.log (Demo.grey 10) false false true Demo.w0).
  - right. left. reflexivity.
  - exact demo_worker_order.
  - reflexivity.
  - exact demo_directory_loads.
Defined.

(** ** A candidate the loop cannot handle *)

(** X8. A candidate whose loading fails with an exception other than the
    three the loop catches (a directory in the listing, a truncated file)
    ends the call: the candidates before it are scanned, the exception
    leaves [image_compare], the candidates after it are never looked at and
    have no influence on the outcome, and the verbose summary is not
    printed. *)
Theorem uncaught_load_error_ends_the_scan (E : env)
    (before after : list string) (file_name : string)
    (compare_file log_filename : string) (key_img : image)
    (verbose compare highlowres : bool) (w : world)
    (Hkey : load_image E compare_file = Loaded key_img)
    (Hok : Forall (fun f => load_image E f <> LoadOtherError) before)
    (Hbad : load_image E file_name = LoadOtherError) :
  exists w1,
    scan E key_img log_filename verbose compare highlowres before 0 w
    = Returned (length before) w1
    /\ image_compare E (Some (before ++ file_name :: after)) compare_file
         log_filename verbose compare highlowres w
       = Raised UncaughtError w1.
Proof.
  destruct (scan_returns_count E key_img log_filename verbose compare highlowres
              before Hok 0 w) as (w1 & Hscan).
  cbn in Hscan. exists w1. split; [exact Hscan |].
  unfold image_compare. rewrite Hkey.
  unfold mbind, M_bind, bind. rewrite scan_app, Hscan, scan_cons.
  unfold compare_candidate. rewrite Hbad. reflexivity.
Qed.

Lemma uncaught_load_error_ends_the_scan_witness :
  load_image Demo.E "/home/u/key.png" = Loaded (Demo.grey 10)
  /\ Forall (fun f => load_image Demo.E f <> LoadOtherError) ["tex/near.png"]
  /\ load_image Demo.E "tex/sub" = LoadOtherError
  /\ exists w1,
       scan Demo.E (Demo.grey 10) Demo.log true false true ["tex/near.png"] 0 Demo.w0
       = Returned (length ["tex/near.png"]) w1
       /\ image_compare Demo.E (Some (["tex/near.png"] ++ "tex/sub" :: ["tex/copy.png"]))
            "/home/u/key.png" Demo.log true false true Demo.w0
          = Raised UncaughtError w1.
Proof.
  assert (Hok : Forall (fun f => load_image Demo.E f <> LoadOtherError) ["tex/near.png"])
    by (repeat constructor; discriminate).
  split; [reflexivity |]. split; [exact Hok |]. split; [reflexivity |].
  apply (uncaught_load_error_ends_the_scan Demo.E ["tex/near.png"] ["tex/copy.png"]
           "tex/sub" "/home/u/key.png" Demo.log (Demo.grey 10) true false true
           Demo.w0); [reflexivity | exact Hok | reflexivity].
Defined.

(** ** Output *)

Lemma body_is_quiet (E : env) (key_img : image) (log_filename : string)
    (compare highlowres : bool) (file_name : string) (w : world) :
  stdout (final_world
            (compare_candidate E key_img log_filename false compare highlowres
               file_name) w)
  = stdout w.
Proof.
  unfold final_world, compare_candidate, sift_branch, mse_branch.
  destruct (load_image E file_name); try reflexivity.
  destruct compare; [| destruct highlowres; [| reflexivity]].
  - destruct (bf_match E _ _) as [n|]; [| reflexivity].
    destruct (400 <? n); reflexivity.
  - destruct (Py.float_lt _ _); reflexivity.
Qed.

(** X9. Without the verbose flag, a call of [image_compare] whose key loads
    prints nothing, whatever the candidates are and however the call ends. *)
Theorem quiet_scan_prints_nothing (E : env) (filename_list : option (list string))
    (compare_file log_filename : string) (key_img : image)
    (compare highlowres : bool) (w : world)
    (Hkey : load_image E compare_file = Loaded key_img) :
  stdout (final_world
            (image_compare E filename_list compare_file log_filename
               false compare highlowres) w)
  = stdout w.
Proof.
  unfold final_world, image_compare. rewrite Hkey.
  destruct filename_list as [files|]; [| reflexivity].
  pose proof (scan_keeps E log_filename false compare highlowres
                (fun w w' => stdout w' = stdout w)
                (fun _ => eq_refl)
                (fun w1 w2 w3 H12 H23 => eq_trans H23 H12)
                (fun key f w0 => body_is_quiet E key log_filename compare
                                   highlowres f w0)
                key_img files 0 w) as Hs.
  unfold final_world in Hs. unfold mbind, M_bind, bind.
  destruct (scan _ _ _ _ _ _ _ _ w); exact Hs.
Qed.

Lemma quiet_scan_prints_nothing_witness :
  load_image Demo.E "/home/u/key.png" = Loaded (Demo.grey 10)
  /\ stdout (final_world
               (image_compare Demo.E (Some (glob Demo.E "tex/*")) "/home/u/key.png"
                  Demo.log false false true) Demo.w0)
     = stdout Demo.w0.
Proof.
  split; [reflexivity |].
  apply (quiet_scan_prints_nothing Demo.E (Some (glob Demo.E "tex/*"))
           "/home/u/key.png" Demo.log (Demo.grey 10) false true Demo.w0).
  reflexivity.
Defined.

(** ** The three ways [main] can go *)

Lemma only_printed_refl w : only_printed w w.
Proof. repeat split. Qed.

Lemma only_printed_trans w1 w2 w3 :
  only_printed w1 w2 -> only_printed w2 w3 -> only_printed w1 w3.
Proof. intros (? & ? & ?) (? & ? & ?). repeat split; congruence. Qed.

Lemma only_printed_print s w : only_printed w (final_world (print s) w).
Proof. repeat split. Qed.

Ltac solve_lookups :=
  repeat (rewrite lookup_insert_eq || rewrite lookup_insert_ne by discriminate).

Lemma parse_parameter_cases (E : env) (compare_file parameter : string)
    (st : Z * gmap string value) (w : world) :
  parse_ok compare_file st ->
  match parse_parameter E parameter st w with
  | Returned st' w' => parse_ok compare_file st' /\ only_printed w w'
  | Exited c w' => c = 1%Z /\ only_printed w w'
  | Raised _ _ => False
  end.
Proof.
  destruct st as [use_threading d]. intros (Hut & Hc & Hh & Hcf). cbn in *.
  unfold parse_parameter.
  assert (Hflags : forall n : Z,
            (n = 0 \/ n = 2 \/ n = 3 \/ n = 4)%Z ->
            parse_ok compare_file
              (n,
               if String.eqb parameter "highlowres"
               then <["highlowres" := VBool true]>
                      (if String.eqb parameter "compare"
                       then <["compare" := VBool true]>
                              (if String.eqb parameter "-v"
                               then <["verbose" := VBool true]> d else d)
                       else if String.eqb parameter "-v"
                            then <["verbose" := VBool true]> d else d)
               else if String.eqb parameter "compare"
                    then <["compare" := VBool true]>
                           (if String.eqb parameter "-v"
                            then <["verbose" := VBool true]> d else d)
                    else if String.eqb parameter "-v"
                         then <["verbose" := VBool true]> d else d)).
  { intros n Hn. unfold parse_ok, unset_or_true. cbn [fst snd].
    destruct (String.eqb parameter "highlowres"),
             (String.eqb parameter "compare"),
             (String.eqb parameter "-v");
      solve_lookups; auto 10. }
  unfold mbind, M_bind, bind.
  destruct (Py.contains "threading=" parameter).
  - destruct (int_of_string E _) as [n|].
    + destruct (negb _) eqn:Hrange.
      * split; [reflexivity | repeat split].
      * split; [| apply only_printed_refl].
        apply negb_false_iff, andb_true_iff in Hrange.
        destruct Hrange as [H2 H5]. apply Z.leb_le in H2. apply Z.ltb_lt in H5.
        apply Hflags. lia.
    + split; [reflexivity | repeat split].
  - split; [| apply only_printed_refl]. now apply Hflags.
Qed.

Lemma parse_parameters_cases (E : env) (compare_file : string)
    (parameters : list string) (st : Z * gmap string value) (w : world) :
  parse_ok compare_file st ->
  match parse_parameters E parameters st w with
  | Returned st' w' => parse_ok compare_file st' /\ only_printed w w'
  | Exited c w' => c = 1%Z /\ only_printed w w'
  | Raised _ _ => False
  end.
Proof.
  revert st w. induction parameters as [|parameter rest IH]; intros st w Hst.
  - split; [exact Hst | apply only_printed_refl].
  - cbn [parse_parameters]. unfold mbind, M_bind, bind.
    pose proof (parse_parameter_cases E compare_file parameter st w Hst) as Hp.
    destruct (parse_parameter E parameter st w) as [st1 w1|c w1|e w1]; auto.
    destruct Hp as [Hst1 Hw1].
    specialize (IH st1 w1 Hst1).
    destruct (parse_parameters E rest st1 w1) as [st2 w2|c w2|e w2]; auto.
    + destruct IH. split; [assumption | eapply only_printed_trans; eassumption].
    + destruct IH. split; [assumption | eapply only_printed_trans; eassumption].
Qed.

Lemma configured_after_log (E : env) (argv : list string) (argv_1 : string)
    (d : gmap string value) :
  argv !! 1 = Some argv_1 ->
  d !! "compare_file" = Some (VStr (getcwd E +:+ "/" +:+ argv_1)) ->
  mode_selected d ->
  configured E argv
    (<["log_filename" := VStr (time_prefix E +:+ "_matches.txt")]> d).
Proof.
  intros Ha Hcf Hmode. split; [| split].
  - unfold mode_selected in *. solve_lookups. exact Hmode.
  - apply lookup_insert_eq.
  - exists argv_1. split; [exact Ha |]. solve_lookups. exact Hcf.
Qed.

Lemma dispatch_cases (E : env) (argv : list string) (texture_path : string)
    (use_threading : Z) (d : gmap string value) (w : world) :
  (use_threading = 0 \/ use_threading = 2 \/ use_threading = 3
   \/ use_threading = 4)%Z ->
  configured E argv
    (<["log_filename" := VStr (time_prefix E +:+ "_matches.txt")]> d) ->
  exists config files w1,
    only_printed w w1
    /\ configured E argv config
    /\ ((use_threading = 0%Z
         /\ dispatch E texture_path use_threading d w
            = image_compare_kwargs E (<["filename_list" := VList files]> config) w1)
        \/ ((Z.to_nat use_threading = 2 \/ Z.to_nat use_threading = 3
             \/ Z.to_nat use_threading = 4)
            /\ dispatch E texture_path use_threading d w
               = Returned tt
                   {| fs := fs w1; stdout := stdout w1;
                      spawned := spawned w1
                        ++ map (fun chunk => <["filename_list" := VList chunk]> config)
                             (filename_list_chunks files (Z.to_nat use_threading));
                      metric_trace := metric_trace w1 |})).
Proof.
  intros Hut Hconf. unfold dispatch. cbv zeta.
  set (config := <["log_filename" := VStr (time_prefix E +:+ "_matches.txt")]> d) in *.
  set (files := glob E (texture_path +:+ "*")).
  assert (Hwarn : exists w1,
            when (length files =? 0)
              (print "Error: no files in path_to_textures, are you sure you provided the right directory?") w
            = Returned tt w1 /\ only_printed w w1).
  { destruct (length files =? 0); eexists; (split; [reflexivity |]); repeat split. }
  destruct Hwarn as (w1 & Hw & Hp).
  exists config, files, w1. split; [exact Hp |]. split; [exact Hconf |].
  unfold mbind, M_bind, bind. rewrite Hw.
  destruct (Z.eqb_spec use_threading 0) as [-> | Hne]; cbn [negb].
  - left. split; reflexivity.
  - right.
    assert (HW : Z.to_nat use_threading = 2 \/ Z.to_nat use_threading = 3
                 \/ Z.to_nat use_threading = 4) by lia.
    split; [exact HW |].
    destruct (multithreading_compare_spawns files config (Z.to_nat use_threading)
                w1 HW) as (d' & Hrun).
    rewrite Hrun. reflexivity.
Qed.

Lemma main_cases (E : env) (argv : list string) (w : world) :
  main_ends_early E argv w \/ main_scans_itself E argv w
  \/ main_starts_workers E argv w.
Proof.
  unfold main_ends_early, main_scans_itself, main_starts_workers, main.
  unfold mbind, M_bind, bind. cbv zeta.
  destruct (argv !! 1) as [argv_1|] eqn:Ha1;
    [| left; exists w; split; [apply only_printed_refl | now right]].
  set (compare_file := getcwd E +:+ "/" +:+ argv_1).
  destruct (negb (isfile E compare_file));
    [left; eexists; split; [| left; reflexivity]; repeat split |].
  destruct (argv !! 2) as [argv_2|] eqn:Ha2;
    [| left; exists w; split; [apply only_printed_refl | now right]].
  match goal with
  | |- context [isdir E ?p] => set (texture_path := p)
  end.
  destruct (negb (isdir E texture_path));
    [left; eexists; split; [| left; reflexivity]; repeat split |].
  match goal with
  | |- context [parse_parameters E ?ps ?st w] =>
      assert (Hst : parse_ok compare_file st)
        by (unfold parse_ok, unset_or_true; cbn [fst snd]; repeat split;
            try lia; try (left; reflexivity); reflexivity);
      pose proof (parse_parameters_cases E compare_file ps st w Hst) as Hp;
      destruct (parse_parameters E ps st w) as [[use_threading d] w1|c w1|e w1]
  end; [| left; destruct Hp as [-> Hp]; exists w1; split; [exact Hp | now left]
        | contradiction].
  destruct Hp as [(Hut & Hc & Hh & Hcf) Hw1]. cbn [fst snd] in *.
  unfold has_key.
  destruct Hc as [Hc | Hc], Hh as [Hh | Hh]; rewrite Hc, Hh;
    change (bool_decide (is_Some (@None value))) with false;
    change (bool_decide (is_Some (Some (VBool true)))) with true;
    cbn [negb orb andb];
    try (left; eexists; split; [| left; reflexivity];
         destruct Hw1 as (? & ? & ?); repeat split; assumption).
  - assert (Hconf : configured E argv
              (<["log_filename" := VStr (time_prefix E +:+ "_matches.txt")]> d))
      by (apply (configured_after_log E argv argv_1); auto; right; auto).
    destruct (dispatch_cases E argv texture_path use_threading d w1 Hut Hconf)
      as (config & files & w2 & Hp2 & Hconf2 & [[_ Hrun] | [HW Hrun]]).
    + right. left. exists config, files, w2.
      split; [eapply only_printed_trans; eassumption |].
      split; [assumption | exact Hrun].
    + right. right. exists config, files, (Z.to_nat use_threading), w2.
      split; [eapply only_printed_trans; eassumption |].
      split; [assumption |]. split; [assumption | exact Hrun].
  - assert (Hconf : configured E argv
              (<["log_filename" := VStr (time_prefix E +:+ "_matches.txt")]> d))
      by (apply (configured_after_log E argv argv_1); auto; left; auto).
    destruct (dispatch_cases E argv texture_path use_threading d w1 Hut Hconf)
      as (config & files & w2 & Hp2 & Hconf2 & [[_ Hrun] | [HW Hrun]]).
    + right. left. exists config, files, w2.
      split; [eapply only_printed_trans; eassumption |].
      split; [assumption | exact Hrun].
    + right. right. exists config, files, (Z.to_nat use_threading), w2.
      split; [eapply only_printed_trans; eassumption |].
      split; [assumption |]. split; [assumption | exact Hrun].
Qed.

Lemma configured_call (E : env) (argv : list string) (config : gmap string value) :
  configured E argv config ->
  exists argv_1 verbose compare highlowres,
    argv !! 1 = Some argv_1
    /\ ((compare = true /\ highlowres = false)
        \/ (compare = false /\ highlowres = true))
    /\ forall files,
         image_compare_kwargs E (<["filename_list" := VList files]> config)
         = image_compare E (Some files) (getcwd E +:+ "/" +:+ argv_1)
             (time_prefix E +:+ "_matches.txt") verbose compare highlowres.
Proof.
  intros (Hmode & Hlog & argv_1 & Ha & Hcf).
  exists argv_1, (get_bool config "verbose"), (get_bool config "compare"),
    (get_bool config "highlowres").
  split; [exact Ha |]. split.
  - unfold get_bool. destruct Hmode as [[-> ->] | [-> ->]]; auto.
  - intros files. unfold image_compare_kwargs, get_list, get_str, get_bool.
    solve_lookups. rewrite Hcf, Hlog. reflexivity.
Qed.

(** ** How a call of [image_compare] can end *)

Lemma body_never_exits (E : env) (key_img : image) (log_filename : string)
    (verbose compare highlowres : bool) (file_name : string) (w : world) :
  match compare_candidate E key_img log_filename verbose compare highlowres
          file_name w with
  | Exited _ _ => False
  | _ => True
  end.
Proof.
  destruct (load_image E file_name) eqn:Hload;
    try (destruct (body_returns E key_img log_filename verbose compare highlowres
                     file_name w) as (w' & ->); [congruence | exact I]).
  unfold compare_candidate. rewrite Hload. exact I.
Qed.

Lemma scan_never_exits (E : env) (key_img : image) (log_filename : string)
    (verbose compare highlowres : bool) (filename_list : list string) :
  forall processed w,
    match scan E key_img log_filename verbose compare highlowres filename_list
            processed w with
    | Exited _ _ => False
    | _ => True
    end.
Proof.
  induction filename_list as [|file_name rest IH]; intros processed w.
  - exact I.
  - rewrite scan_cons.
    pose proof (body_never_exits E key_img log_filename verbose compare
                  highlowres file_name w) as Hb.
    destruct (compare_candidate _ _ _ _ _ _ _ w); auto. apply IH.
Qed.

Lemma image_compare_exit (E : env) (filename_list : option (list string))
    (compare_file log_filename : string) (verbose compare highlowres : bool)
    (w w' : world) (code : Z) :
  image_compare E filename_list compare_file log_filename verbose compare
    highlowres w = Exited code w' ->
  code = 1%Z /\ only_printed w w'.
Proof.
  unfold image_compare.
  destruct (load_image E compare_file) as [key_img| | | |]; try discriminate;
    try (intros H; injection H as <- <-; split; [reflexivity | repeat split]).
  destruct filename_list as [files|]; [| discriminate].
  unfold mbind, M_bind, bind.
  pose proof (scan_never_exits E key_img log_filename verbose compare highlowres
                files 0 w) as Hs.
  destruct (scan _ _ _ _ _ _ _ _ w); try contradiction; try discriminate.
  destruct verbose; discriminate.
Qed.

Lemma image_compare_without_key (E : env) (filename_list : option (list string))
    (compare_file log_filename : string) (verbose compare highlowres : bool)
    (w : world) :
  (forall img, load_image E compare_file <> Loaded img) ->
  only_printed w
    (final_world (image_compare E filename_list compare_file log_filename
                    verbose compare highlowres) w).
Proof.
  intros Hkey. unfold final_world, image_compare.
  destruct (load_image E compare_file) as [key_img| | | |];
    [exfalso; exact (Hkey key_img eq_refl) | | | |]; repeat split.
Qed.

Lemma image_compare_trace (E : env) (filename_list : option (list string))
    (compare_file log_filename : string) (verbose compare highlowres : bool)
    (w : world) :
  extends_trace (fun e => e.1 = if compare then SIFT else MSE) w
    (final_world (image_compare E filename_list compare_file log_filename
                    verbose compare highlowres) w).
Proof.
  apply (image_compare_keeps E log_filename verbose compare highlowres
           (extends_trace (fun e => e.1 = if compare then SIFT else MSE))).
  - apply extends_trace_refl.
  - apply extends_trace_trans.
  - intros key f w0.
    destruct (candidate_trace_grows_by_one E key log_filename verbose compare
                highlowres f w0) as (t & Ht & _ & Hall).
    exists t. auto.
  - apply extends_trace_print.
Qed.

Lemma foldl_keeps {A} (R : world -> world -> Prop) (step : world -> A -> world)
    (l : list A) :
  (forall w, R w w) ->
  (forall w1 w2 w3, R w1 w2 -> R w2 w3 -> R w1 w3) ->
  (forall w a, R w (step w a)) ->
  forall w, R w (foldl step w l).
Proof.
  intros Hrefl Htrans Hstep. induction l as [|a l IH]; intros w; cbn [foldl].
  - apply Hrefl.
  - eapply Htrans; [apply Hstep | apply IH].
Qed.

(** ** What [main] does before a scan *)

(** X10. Whenever [main] leaves through [exit], the exit code is 1 and
    nothing was done but printing: no file was written, no process started
    and no metric computed. *)
Theorem main_exits_with_1_before_any_scan (E : env) (argv : list string)
    (w w' : world) (code : Z)
    (Hexit : main E argv w = Exited code w') :
  code = 1%Z
  /\ fs w' = fs w /\ spawned w' = spawned w /\ metric_trace w' = metric_trace w.
Proof.
  destruct (main_cases E argv w)
    as [(w1 & Hp & [H | H])
       | [(config & files & w1 & Hp & Hconf & Hrun)
         | (config & files & W & w1 & Hp & Hconf & HW & Hrun)]].
  - rewrite H in Hexit. injection Hexit as <- <-. split; [reflexivity | exact Hp].
  - rewrite H in Hexit. discriminate Hexit.
  - destruct (configured_call E argv config Hconf)
      as (argv_1 & verbose & compare & highlowres & _ & _ & Hcall).
    rewrite Hrun, Hcall in Hexit.
    apply image_compare_exit in Hexit as [-> Hp2].
    split; [reflexivity | exact (only_printed_trans _ _ _ Hp Hp2)].
  - rewrite Hrun in Hexit. discriminate Hexit.
Qed.

Lemma main_exits_with_1_before_any_scan_witness :
  main Demo.E ["image_compare.py"; "key.png"; "tex"; "compare"; "highlowres"] Demo.w0
  = Exited 1
      {| fs := ∅;
         stdout := ["Error: more than one argument for search_mode provided, see README.md for more details."];
         spawned := []; metric_trace := [] |}
  /\ 1%Z = 1%Z
  /\ (∅ : gmap string (list string)) = fs Demo.w0
  /\ [] = spawned Demo.w0 /\ [] = metric_trace Demo.w0.
Proof.
  split; [vm_compute; reflexivity |].
  apply (main_exits_with_1_before_any_scan Demo.E
           ["image_compare.py"; "key.png"; "tex"; "compare"; "highlowres"] Demo.w0
           {| fs := ∅;
              stdout := ["Error: more than one argument for search_mode provided, see README.md for more details."];
              spawned := []; metric_trace := [] |} 1).
  vm_compute. reflexivity.
Defined.

(** X11. Whatever the command line, [main] starts no process, or 2, 3 or 4
    of them. *)
Theorem main_starts_0_2_3_or_4_processes (E : env) (argv : list string)
    (w : world) :
  exists started,
    spawned (final_world (main E argv) w) = spawned w ++ started
    /\ (length started = 0 \/ length started = 2 \/ length started = 3
        \/ length started = 4).
Proof.
  unfold final_world.
  destruct (main_cases E argv w)
    as [(w1 & (_ & Hsp & _) & [H | H])
       | [(config & files & w1 & (_ & Hsp & _) & Hconf & Hrun)
         | (config & files & W & w1 & (_ & Hsp & _) & Hconf & HW & Hrun)]].
  - rewrite H. exists []. rewrite app_nil_r. auto.
  - rewrite H. exists []. rewrite app_nil_r. auto.
  - destruct (configured_call E argv config Hconf)
      as (argv_1 & verbose & compare & highlowres & _ & _ & Hcall).
    rewrite Hrun, Hcall.
    destruct (image_compare_keeps_to_log (time_prefix E +:+ "_matches.txt") E
                (Some files) (getcwd E +:+ "/" +:+ argv_1) verbose compare
                highlowres w1) as [_ Hsp1].
    unfold final_world in Hsp1.
    exists []. rewrite app_nil_r. split; [congruence | auto].
  - rewrite Hrun. cbn [spawned]. rewrite Hsp.
    eexists. split; [reflexivity |].
    rewrite length_map, chunks_length by lia. lia.
Qed.

(** ** What holds of every run *)

Section RunKeeps.

Variable E : env.
Variable argv : list string.
Variable R : bool -> world -> world -> Prop.
Hypothesis R_refl : forall c w, R c w w.
Hypothesis R_trans : forall c w1 w2 w3, R c w1 w2 -> R c w2 w3 -> R c w1 w3.
Hypothesis R_printed : forall c w w', only_printed w w' -> R c w w'.
Hypothesis R_started : forall c w started,
  R c w {| fs := fs w; stdout := stdout w; spawned := started;
           metric_trace := metric_trace w |}.
Hypothesis R_scan : forall argv_1 verbose c files w,
  argv !! 1 = Some argv_1 ->
  R c w (final_world
           (image_compare E (Some files) (getcwd E +:+ "/" +:+ argv_1)
              (time_prefix E +:+ "_matches.txt") verbose c (negb c)) w).

Lemma run_keeps (files : gmap string (list string)) :
  exists c,
    R c {| fs := files; stdout := []; spawned := []; metric_trace := [] |}
      (run E argv files).
Proof.
  unfold run.
  set (w0 := {| fs := files; stdout := []; spawned := []; metric_trace := [] |}).
  unfold final_world at 2 3.
  destruct (main_cases E argv w0)
    as [(w1 & Hp & [H | H])
       | [(config & fl & w1 & Hp & Hconf & Hrun)
         | (config & fl & W & w1 & Hp & Hconf & HW & Hrun)]].
  - exists true. rewrite H. destruct Hp as (Hfs & Hsp & Htr). rewrite Hsp.
    cbn. apply R_printed. repeat split; assumption.
  - exists true. rewrite H. destruct Hp as (Hfs & Hsp & Htr). rewrite Hsp.
    cbn. apply R_printed. repeat split; assumption.
  - destruct (configured_call E argv config Hconf)
      as (argv_1 & verbose & compare & highlowres & Ha & Hmode & Hcall).
    assert (Hh : highlowres = negb compare)
      by (destruct Hmode as [[-> ->] | [-> ->]]; reflexivity).
    subst highlowres. exists compare. rewrite Hrun, Hcall.
    destruct (image_compare_keeps_to_log (time_prefix E +:+ "_matches.txt") E
                (Some fl) (getcwd E +:+ "/" +:+ argv_1) verbose compare
                (negb compare) w1) as [_ Hsp1].
    pose proof (R_scan argv_1 verbose compare fl w1 Ha) as Hscan.
    unfold final_world in Hsp1, Hscan.
    destruct (image_compare _ _ _ _ _ _ _ w1) as [[] w2|code w2|e w2];
      (replace (spawned w2) with (@nil (gmap string value))
         by (destruct Hp as (_ & Hsp & _); cbn in *; congruence));
      cbn [foldl];
      (eapply R_trans; [apply R_printed; exact Hp | exact Hscan]).
  - destruct (configured_call E argv config Hconf)
      as (argv_1 & verbose & compare & highlowres & Ha & Hmode & Hcall).
    assert (Hh : highlowres = negb compare)
      by (destruct Hmode as [[-> ->] | [-> ->]]; reflexivity).
    subst highlowres. exists compare. rewrite Hrun. cbn [spawned].
    replace (spawned w1) with (@nil (gmap string value))
      by (destruct Hp as (_ & Hsp & _); cbn in Hsp; congruence).
    cbn [app].
    set (started := map (fun chunk => <["filename_list" := VList chunk]> config)
                      (filename_list_chunks fl W)).
    eapply R_trans; [apply R_printed; exact Hp |].
    eapply R_trans; [apply (R_started compare w1 started) |].
    set (wm := {| fs := fs w1; stdout := stdout w1; spawned := started;
                  metric_trace := metric_trace w1 |}).
    clearbody wm. unfold started. clear started.
    generalize (filename_list_chunks fl W) as chunks.
    intros chunks. revert wm.
    induction chunks as [|chunk rest IH]; intros wa; cbn [map foldl].
    + apply R_refl.
    + eapply R_trans; [| apply IH].
      rewrite Hcall. now apply R_scan.
Qed.

End RunKeeps.

(** X12. In every run, all the metrics computed, by the process of [main]
    and by the workers it starts, are of one kind: all SIFT or all MSE. *)
Theorem run_uses_one_metric (E : env) (argv : list string)
    (files : gmap string (list string)) :
  Forall (fun e => e.1 = SIFT) (metric_trace (run E argv files))
  \/ Forall (fun e => e.1 = MSE) (metric_trace (run E argv files)).
Proof.
  destruct (run_keeps E argv
              (fun c => extends_trace (fun e => e.1 = if c then SIFT else MSE)))
    with (files := files) as [c (t & Ht & Hall)].
  - intros c w. apply extends_trace_refl.
  - intros c. apply extends_trace_trans.
  - intros c w w' (_ & _ & Htr). exists []. rewrite app_nil_r. split; [exact Htr | constructor].
  - intros c w started. exists []. rewrite app_nil_r. split; [reflexivity | constructor].
  - intros argv_1 verbose c fl w _. apply image_compare_trace.
  - cbn [metric_trace app] in Ht. rewrite Ht.
    destruct c; [left | right]; exact Hall.
Qed.

(** X13. When the key file cannot be loaded as an image, a run writes no
    file: neither the process of [main] nor any worker reaches the scan. *)
Theorem run_without_key_writes_nothing (E : env) (argv : list string)
    (files : gmap string (list string))
    (Hkey : forall argv_1 img,
        argv !! 1 = Some argv_1 ->
        load_image E (getcwd E +:+ "/" +:+ argv_1) <> Loaded img) :
  fs (run E argv files) = files.
Proof.
  destruct (run_keeps E argv (fun _ w w' => fs w' = fs w))
    with (files := files) as [_ H].
  - reflexivity.
  - intros _ w1 w2 w3 H12 H23. congruence.
  - intros _ w w' (Hfs & _). exact Hfs.
  - reflexivity.
  - intros argv_1 verbose c fl w Ha.
    apply (image_compare_without_key E (Some fl) (getcwd E +:+ "/" +:+ argv_1)).
    intros img. now apply Hkey.
  - exact H.
Qed.

Lemma unreadable_key_is_not_loaded :
  forall argv_1 img,
    ["image_compare.py"; "key.png"; "tex"; "highlowres"; "threading=2"] !! 1
    = Some argv_1 ->
    load_image unreadable_key_env (getcwd unreadable_key_env +:+ "/" +:+ argv_1)
    <> Loaded img.
Proof. intros argv_1 img H. injection H as <-. discriminate. Qed.

Lemma run_without_key_writes_nothing_witness :
  (forall argv_1 img,
     ["image_compare.py"; "key.png"; "tex"; "highlowres"; "threading=2"] !! 1
     = Some argv_1 ->
     load_image unreadable_key_env (getcwd unreadable_key_env +:+ "/" +:+ argv_1)
     <> Loaded img)
  /\ fs (run unreadable_key_env
           ["image_compare.py"; "key.png"; "tex"; "highlowres"; "threading=2"] ∅)
     = ∅.
Proof.
  split; [exact unreadable_key_is_not_loaded |].
  apply (run_without_key_writes_nothing unreadable_key_env
           ["image_compare.py"; "key.png"; "tex"; "highlowres"; "threading=2"] ∅).
  exact unreadable_key_is_not_loaded.
Defined.

Example workers_all_fail_on_the_key :
  stdout (run unreadable_key_env
            ["image_compare.py"; "key.png"; "tex"; "highlowres"; "threading=2"] ∅)
  = ["Error: invalid compare_file, ensure file is an image";
     "Error: invalid compare_file, ensure file is an image"].
Proof. vm_compute. reflexivity. Qed.

(** ** The directory argument *)

Lemma drop_last_is_slash (s : string) :
  String.eqb (Py.drop_last s) "/"
  = (String.length s =? 2) && String.prefix "/" s.
Proof.
  destruct s as [|c1 [|c2 [|c3 s]]]; try reflexivity.
  - destruct c1 as [[] [] [] [] [] [] [] []]; reflexivity.
  - destruct c1 as [[] [] [] [] [] [] [] []]; reflexivity.
Qed.

(** X14. [main] tests the directory argument with a slash appended, also
    when the argument already ends in a slash; only an argument made of a
    slash and one more character is tested as it is. When the path so built
    is not a directory, [main] prints the directory error and exits with 1. *)
Theorem directory_is_checked_with_slash_appended (E : env) (argv : list string)
    (argv_1 argv_2 : string) (w : world)
    (Hkey : argv !! 1 = Some argv_1)
    (Hfile : isfile E (getcwd E +:+ "/" +:+ argv_1) = true)
    (Hdir : argv !! 2 = Some argv_2)
    (Hnot : isdir E (checked_directory argv_2) = false) :
  main E argv w
  = Exited 1
      {| fs := fs w;
         stdout := stdout w ++ ["Error: path_to_textures is not a valid directory, see README.md for formatting examples"];
         spawned := spawned w; metric_trace := metric_trace w |}.
Proof.
  unfold main. rewrite Hkey, Hfile, Hdir. cbn [negb]. cbv zeta.
  unfold checked_directory in Hnot. rewrite <- drop_last_is_slash in Hnot.
  destruct (String.eqb (Py.drop_last (Py.replace_char backslash slash argv_2)) "/");
    cbn [negb]; rewrite Hnot; reflexivity.
Qed.

Lemma directory_is_checked_with_slash_appended_witness :
  ["image_compare.py"; "key.png"; "tex/"; "highlowres"] !! 1 = Some "key.png"
  /\ isfile Demo.E (getcwd Demo.E +:+ "/" +:+ "key.png") = true
  /\ ["image_compare.py"; "key.png"; "tex/"; "highlowres"] !! 2 = Some "tex/"
  /\ checked_directory "tex/" = "tex//"
  /\ isdir Demo.E (checked_directory "tex/") = false
  /\ main Demo.E ["image_compare.py"; "key.png"; "tex/"; "highlowres"] Demo.w0
     = Exited 1
         {| fs := fs Demo.w0;
            stdout := stdout Demo.w0 ++ ["Error: path_to_textures is not a valid directory, see README.md for formatting examples"];
            spawned := spawned Demo.w0; metric_trace := metric_trace Demo.w0 |}.
Proof.
  repeat (split; [reflexivity |]).
  apply (directory_is_checked_with_slash_appended Demo.E
           ["image_compare.py"; "key.png"; "tex/"; "highlowres"]
           "key.png" "tex/" Demo.w0); reflexivity.
Defined.

(** ** The worker count on the command line *)

Lemma bad_parameter_exits (E : env) (parameter : string)
    (st : Z * gmap string value) (w : world) :
  bad_thread_count E parameter ->
  exists w', parse_parameter E parameter st w = Exited 1 w' /\ only_printed w w'.
Proof.
  intros [Hin Hval]. unfold parse_parameter. destruct st as [use_threading d].
  rewrite Hin. unfold mbind, M_bind, bind.
  destruct (int_of_string E _) as [n|].
  - replace (negb ((2 <=? n)%Z && (n <? 5)%Z)) with true.
    + eexists. split; [reflexivity | repeat split].
    + symmetry. apply negb_true_iff, andb_false_iff.
      destruct Hval; [left; apply Z.leb_gt | right; apply Z.ltb_ge]; lia.
  - eexists. split; [reflexivity | repeat split].
Qed.

Lemma bad_parameter_stops_the_loop (E : env) (compare_file : string)
    (parameters : list string) (parameter : string) :
  In parameter parameters ->
  bad_thread_count E parameter ->
  forall st w,
    parse_ok compare_file st ->
    exists w',
      parse_parameters E parameters st w = Exited 1 w' /\ only_printed w w'.
Proof.
  intros Hin Hbad. induction parameters as [|q rest IH]; [destruct Hin |].
  intros st w Hst. cbn [parse_parameters]. unfold mbind, M_bind, bind.
  destruct Hin as [-> | Hin].
  - destruct (bad_parameter_exits E parameter st w Hbad) as (w' & -> & Hp). eauto.
  - pose proof (parse_parameter_cases E compare_file q st w Hst) as Hq.
    destruct (parse_parameter E q st w) as [st1 w1|c w1|e w1].
    + destruct Hq as [Hst1 Hp1].
      destruct (IH Hin st1 w1 Hst1) as (w' & -> & Hp).
      exists w'. split; [reflexivity | eapply only_printed_trans; eassumption].
    + destruct Hq as [-> Hp1]. eauto.
    + contradiction.
Qed.

(** X15. When any argument from the directory argument on contains
    [threading=] and what follows its tenth character is no integer or an
    integer outside 2..4, [main] exits with 1 without scanning: it writes no
    file and starts no process, whatever the other arguments are. *)
Theorem invalid_thread_count_stops_main (E : env) (argv : list string)
    (parameter : string) (w : world)
    (Hin : In parameter (drop 2 argv))
    (Hbad : bad_thread_count E parameter) :
  exists w',
    main E argv w = Exited 1 w'
    /\ fs w' = fs w /\ spawned w' = spawned w /\ metric_trace w' = metric_trace w.
Proof.
  unfold main.
  destruct argv as [|argv_0 [|argv_1 [|argv_2 rest]]];
    [destruct Hin | destruct Hin | destruct Hin |].
  change ((argv_0 :: argv_1 :: argv_2 :: rest) !! 1) with (Some argv_1).
  change ((argv_0 :: argv_1 :: argv_2 :: rest) !! 2) with (Some argv_2).
  cbv beta iota zeta.
  destruct (negb (isfile E _));
    [eexists; split; [reflexivity | repeat split] |].
  destruct (negb (isdir E _));
    [eexists; split; [reflexivity | repeat split] |].
  unfold mbind, M_bind, bind.
  match goal with
  | |- context [parse_parameters E ?ps ?st w] =>
      destruct (bad_parameter_stops_the_loop E (getcwd E +:+ "/" +:+ argv_1)
                  ps parameter Hin Hbad st w) as (w' & -> & Hp)
  end.
  - unfold parse_ok, unset_or_true. cbn [fst snd].
    repeat split; try lia; try (left; reflexivity); reflexivity.
  - exists w'. split; [reflexivity | exact Hp].
Qed.

Lemma demo_bad_thread_count : bad_thread_count Demo.E "threading=5".
Proof. split; [reflexivity |]. cbn. lia. Qed.

Lemma invalid_thread_count_stops_main_witness :
  In "threading=5"
    (drop 2 ["image_compare.py"; "key.png"; "tex"; "highlowres"; "threading=5"])
  /\ bad_thread_count Demo.E "threading=5"
  /\ exists w',
       main Demo.E ["image_compare.py"; "key.png"; "tex"; "highlowres"; "threading=5"]
         Demo.w0 = Exited 1 w'
       /\ fs w' = fs Demo.w0 /\ spawned w' = spawned Demo.w0
       /\ metric_trace w' = metric_trace Demo.w0.
Proof.
  assert (Hin : In "threading=5"
                  (drop 2 ["image_compare.py"; "key.png"; "tex"; "highlowres";
                           "threading=5"]))
    by (cbn; auto).
  split; [exact Hin |]. split; [exact demo_bad_thread_count |].
  apply (invalid_thread_count_stops_main Demo.E
           ["image_compare.py"; "key.png"; "tex"; "highlowres"; "threading=5"]
           "threading=5" Demo.w0 Hin demo_bad_thread_count).
Defined.

(** ** The key among the candidates *)

(** X16. In highlowres mode a candidate that loads to the same non-empty
    array as the key, as the key file itself does when it lies in the
    scanned directory, has score 0 and always gets its record. *)
Theorem copy_of_key_is_always_logged (E : env) (key_img : image)
    (log_filename : string) (verbose : bool) (file_name : string) (w : world)
    (Hsize : 0 < shape0 key_img * shape1 key_img)
    (Hload : load_image E file_name = Loaded key_img) :
  Py.float_eq (mse key_img key_img) (Py.Fin 0) = true
  /\ exists w',
       compare_candidate E key_img log_filename verbose false true file_name w
       = Returned tt w'
       /\ log_records w' log_filename
          = log_records w log_filename
            ++ [mse_record E file_name (mse key_img key_img)].
Proof.
  split; [now apply mse_self_nonempty |].
  unfold compare_candidate. rewrite Hload.
  destruct (mse_branch_effect E key_img key_img file_name log_filename verbose w)
    as (w' & Hrun & Hfs & _ & _).
  exists w'. split; [exact Hrun |].
  assert (Hlt : Py.float_lt (mse key_img key_img) 1000 = true).
  { unfold mse. rewrite squared_error_self.
    destruct (shape0 key_img * shape1 key_img); [lia | reflexivity]. }
  rewrite Hlt in Hfs. unfold log_records at 1.
  rewrite Hfs, lookup_insert_eq. reflexivity.
Qed.

Lemma copy_of_key_is_always_logged_witness :
  0 < shape0 (Demo.grey 10) * shape1 (Demo.grey 10)
  /\ load_image Demo.E "tex/copy.png" = Loaded (Demo.grey 10)
  /\ Py.float_eq (mse (Demo.grey 10) (Demo.grey 10)) (Py.Fin 0) = true
  /\ exists w',
       compare_candidate Demo.E (Demo.grey 10) Demo.log false false true
         "tex/copy.png" Demo.w0 = Returned tt w'
       /\ log_records w' Demo.log
          = log_records Demo.w0 Demo.log
            ++ [mse_record Demo.E "tex/copy.png" (mse (Demo.grey 10) (Demo.grey 10))].
Proof.
  split; [cbn; lia |]. split; [reflexivity |].
  apply (copy_of_key_is_always_logged Demo.E (Demo.grey 10) Demo.log false
           "tex/copy.png" Demo.w0); [cbn; lia | reflexivity].
Defined.
